(** * SkyServeController: the HTTP control surface of SkyServe

    A shallow embedding of [sky/serve/controller.py].  The controller is a
    thin facade: every handler reads its request, calls methods of two
    collaborators (the infra provider and the optional autoscaler), and
    returns a small dictionary.  The collaborators live in other modules,
    so a handler is embedded as a program over the collaborator calls it
    issues; running a program against an implementation of the calls
    yields the sequence of calls made, the log lines written, the response
    (or the exception that escaped) and the final collaborator state. *)

From Stdlib Require Import NArith ZArith List Bool Lia DecimalString.
From Stdlib.Strings Require Import Ascii String Byte.
Import ListNotations.
Local Open Scope string_scope.
Local Open Scope list_scope.

Set Implicit Arguments.
#[local] Set Warnings "-register-all".

(** ** Python values *)

(** The values that travel through the controller: parsed JSON bodies,
    whatever the collaborators return, and the response dictionaries.
    A dictionary keeps its items in insertion order, as Python does.
    Floating-point numbers are not represented; the controller never
    computes on a number, it only passes values along. *)
Inductive pyval : Type :=
| PNone
| PBool (b : bool)
| PInt (z : Z)
| PStr (s : string)
| PBytes (bs : list byte)
| PList (l : list pyval)
| PDict (kv : list (string * pyval)).

(** Exceptions that can escape a handler. *)
Inductive PyExn : Type :=
| ValueError (msg : string)
| KeyError (key : string)
| TypeError
| JSONDecodeError
| UnicodeDecodeError
| RecursionError
| PicklingError
| FileNotFoundError (path : string)
| CollaboratorError (what : string).

(** [d[k]] on a dictionary: the item stored under [k], [KeyError]
    otherwise.  The keys of a dictionary are distinct. *)
Fixpoint dict_get (kv : list (string * pyval)) (k : string) : option pyval :=
  match kv with
  | [] => None
  | (k', v) :: rest => if String.eqb k' k then Some v else dict_get rest k
  end.

(** ** The service specification object

    [serve.SkyServiceSpec] is defined elsewhere; the controller reads
    these five attributes of it at start-up and otherwise passes the
    object along untouched. *)
Record SkyServiceSpec : Type := {
  auto_restart : pyval;
  min_replicas : pyval;
  max_replicas : pyval;
  qps_upper_threshold : pyval;
  qps_lower_threshold : pyval
}.

(** ** Collaborator calls *)

(** One constructor per method the controller calls on
    [self.infra_provider], on [self.autoscaler] and on the [serve]
    module; the index is the type of the value the call returns. *)
Inductive Cmd : Type -> Type :=
(* infra_providers.InfraProvider *)
| GetReadyReplicas : Cmd pyval
| GetReplicaInfo (verbose : bool) : Cmd pyval
| GetUptime : Cmd pyval
| GetLatestVersion : Cmd pyval
| SetSeparateReplicas (separate_replicas : pyval) : Cmd unit
| UpdateVersion (version : pyval) (service : SkyServiceSpec) : Cmd unit
| InfraTerminate : Cmd pyval
| StartReplicaProber : Cmd unit
(* autoscalers.Autoscaler *)
| SetNumRequests (num_requests : pyval) : Cmd unit
| GetQueryInterval : Cmd pyval
| UpdateSpec (service : SkyServiceSpec) : Cmd unit
| AutoscalerTerminate : Cmd unit
| AutoscalerStart : Cmd unit
(* serve *)
| GenerateRemoteTaskYamlFileName
    (service_name : string) (version : pyval) (expand_user : bool) : Cmd string
| FromYaml (path : string) : Cmd SkyServiceSpec.

(** A call with its result type forgotten, as it appears in a trace. *)
Inductive Call : Type :=
| Called {X : Type} (c : Cmd X).

(** The lines the handlers write with [logger.info]. *)
Inductive LogMsg : Type :=
| LogReceivedRequest (request_data : pyval)
| LogUpdateToVersion (version : pyval)
| LogServiceSpec (service : SkyServiceSpec)
| LogTerminatingService
| LogTerminateAutoscaler
| LogControllerStarted (port : Z).

(** ** Handler programs *)

Inductive Prog (A : Type) : Type :=
| Ret (a : A)
| Raise (e : PyExn)
| Log (m : LogMsg) (k : Prog A)
| Do {X : Type} (c : Cmd X) (k : X -> Prog A).

Arguments Raise {A} e.

Fixpoint bind {A B : Type} (p : Prog A) (f : A -> Prog B) : Prog B :=
  match p with
  | Ret a => f a
  | Raise e => Raise e
  | Log m k => Log m (bind k f)
  | Do c k => Do c (fun x => bind (k x) f)
  end.

Definition call {X : Type} (c : Cmd X) : Prog X := Do c (fun x => Ret x).
Definition logger_info (m : LogMsg) : Prog unit := Log m (Ret tt).

Declare Scope prog_scope.
Delimit Scope prog_scope with prog.
Notation "x <- p ;; q" := (bind p (fun x => q))
  (at level 61, p at next level, right associativity) : prog_scope.
Notation "p ;; q" := (bind p (fun _ => q))
  (at level 61, right associativity) : prog_scope.
Local Open Scope prog_scope.

(** ** Running a program *)

(** An implementation of the collaborators over a state [W]: each call
    either returns a value or raises, and leaves a new state. *)
Definition Handler (W : Type) : Type :=
  forall X : Type, Cmd X -> W -> (PyExn + X) * W.

Record Outcome (W A : Type) : Type := {
  calls : list Call;
  logged : list LogMsg;
  result : PyExn + A;
  final : W
}.

Fixpoint run {W A : Type} (h : Handler W) (p : Prog A) (w : W) : Outcome W A :=
  match p with
  | Ret a => {| calls := []; logged := []; result := inr a; final := w |}
  | Raise e => {| calls := []; logged := []; result := inl e; final := w |}
  | Log m k =>
      let o := run h k w in
      {| calls := calls o; logged := m :: logged o;
         result := result o; final := final o |}
  | Do c k =>
      match h _ c w with
      | (inl e, w') =>
          {| calls := [Called c]; logged := []; result := inl e; final := w' |}
      | (inr x, w') =>
          let o := run h (k x) w' in
          {| calls := Called c :: calls o; logged := logged o;
             result := result o; final := final o |}
      end
  end.

(** ** Requests *)

(** A [fastapi.Request] as the handlers see it, through
    [request.json()], which is [json.loads] on the bytes of the body:
    [body] is the parsed value, and [None] when parsing raises; then
    [json_error] is the exception raised ([JSONDecodeError] for text
    that is not JSON, [UnicodeDecodeError] for bytes that are not
    UTF-8, [RecursionError] for a nesting too deep, ...). *)
Record Request : Type := {
  body : option pyval;
  json_error : PyExn
}.

(** [asyncio.run(request.json())] *)
Definition request_json (request : Request) : Prog pyval :=
  match body request with
  | Some v => Ret v
  | None => Raise (json_error request)
  end.

(** [request_data[key]] with a string key: only a dictionary can be
    subscripted that way. *)
Definition getitem (request_data : pyval) (key : string) : Prog pyval :=
  match request_data with
  | PDict kv =>
      match dict_get kv key with
      | Some v => Ret v
      | None => Raise (KeyError key)
      end
  | _ => Raise TypeError
  end.

(** ** The controller object *)

(** The classes an autoscaler object can belong to: the base class
    [autoscalers.Autoscaler] or [autoscalers.RequestRateAutoscaler]. *)
Inductive AutoscalerClass : Type :=
| Autoscaler
| RequestRateAutoscaler.

(** The fields set by [__init__].  [infra_provider] is always present
    and is the receiver of the infra-provider calls; [autoscaler] is
    [Optional]. *)
Record SkyServeController : Type := {
  service_name : string;
  port : Z;
  autoscaler : option AutoscalerClass
}.

(** [isinstance(self.autoscaler, autoscalers.RequestRateAutoscaler)] *)
Definition isinstance_RequestRateAutoscaler (self : SkyServeController) : bool :=
  match autoscaler self with
  | Some RequestRateAutoscaler => true
  | _ => false
  end.

(** [self.autoscaler is None] *)
Definition autoscaler_is_None (self : SkyServeController) : bool :=
  match autoscaler self with
  | None => true
  | Some _ => false
  end.

Definition message_Success : pyval := PDict [("message", PStr "Success")].

(** ** Base64 and text encoding

    [base64.b64encode] of the standard library, after RFC 4648: three
    bytes become four characters of the alphabet, and a last group of one
    or two bytes is padded with [=]. *)

Definition b64_alphabet : list byte :=
  list_byte_of_string
    "ABCDEFGHIJKLMNOPQRSTUVWXYZabcdefghijklmnopqrstuvwxyz0123456789+/".

Definition b64_pad : byte := "="%byte.

Definition b64_char (i : N) : byte := nth (N.to_nat i) b64_alphabet b64_pad.

Fixpoint index_of (c : byte) (l : list byte) (i : N) : option N :=
  match l with
  | [] => None
  | x :: rest => if Byte.eqb x c then Some i else index_of c rest (N.succ i)
  end.

Definition b64_index (c : byte) : option N := index_of c b64_alphabet 0%N.

Fixpoint b64encode (bs : list byte) : list byte :=
  match bs with
  | [] => []
  | [a] =>
      let n := (Byte.to_N a * 16)%N in
      [b64_char (n / 64); b64_char (n mod 64); b64_pad; b64_pad]
  | [a; b] =>
      let n := ((Byte.to_N a * 256 + Byte.to_N b) * 4)%N in
      [b64_char (n / 4096); b64_char ((n / 64) mod 64); b64_char (n mod 64);
       b64_pad]
  | a :: b :: c :: rest =>
      let n := (Byte.to_N a * 65536 + Byte.to_N b * 256 + Byte.to_N c)%N in
      b64_char (n / 262144) :: b64_char ((n / 4096) mod 64)
        :: b64_char ((n / 64) mod 64) :: b64_char (n mod 64)
        :: b64encode rest
  end.

(** The bytes a group of four characters stands for; [None] for text
    that is not Base64. *)
Definition b64decode_pad1 (c1 c2 c3 : byte) : option (list byte) :=
  match b64_index c1, b64_index c2, b64_index c3 with
  | Some s1, Some s2, Some s3 =>
      let n := (s1 * 4096 + s2 * 64 + s3)%N in
      match Byte.of_N (n / 1024), Byte.of_N ((n / 4) mod 256) with
      | Some a, Some b => Some [a; b]
      | _, _ => None
      end
  | _, _, _ => None
  end.

Definition b64decode_pad2 (c1 c2 : byte) : option (list byte) :=
  match b64_index c1, b64_index c2 with
  | Some s1, Some s2 =>
      match Byte.of_N ((s1 * 64 + s2) / 16) with
      | Some a => Some [a]
      | None => None
      end
  | _, _ => None
  end.

Definition b64decode_full (c1 c2 c3 c4 : byte) : option (list byte) :=
  match b64_index c1, b64_index c2, b64_index c3, b64_index c4 with
  | Some s1, Some s2, Some s3, Some s4 =>
      let n := (s1 * 262144 + s2 * 4096 + s3 * 64 + s4)%N in
      match Byte.of_N (n / 65536), Byte.of_N ((n / 256) mod 256),
            Byte.of_N (n mod 256) with
      | Some a, Some b, Some c => Some [a; b; c]
      | _, _, _ => None
      end
  | _, _, _, _ => None
  end.

Fixpoint b64decode (cs : list byte) : option (list byte) :=
  match cs with
  | [] => Some []
  | c1 :: c2 :: c3 :: c4 :: rest =>
      if Byte.eqb c4 b64_pad then
        match rest with
        | [] =>
            if Byte.eqb c3 b64_pad then b64decode_pad2 c1 c2
            else b64decode_pad1 c1 c2 c3
        | _ :: _ => None
        end
      else
        match b64decode_full c1 c2 c3 c4, b64decode rest with
        | Some g, Some bs => Some (g ++ bs)
        | _, _ => None
        end
  | _ => None
  end.

(** [bytes.decode('utf-8')] on the ASCII range, where every byte is one
    character with the same code; a byte from 0x80 on is not decoded
    here.  Base64 text never leaves the ASCII range. *)
Definition is_ascii (b : byte) : bool := (Byte.to_N b <? 128)%N.

Definition decode_utf8 (bs : list byte) : option string :=
  if forallb is_ascii bs then Some (string_of_list_byte bs) else None.

(** [base64.b64decode] applied to a [str]. *)
Definition b64decode_str (s : string) : option (list byte) :=
  b64decode (list_byte_of_string s).

(** ** The handlers registered by [run] *)

Section Handlers.

(** [pickle.dumps]: the byte format is the standard library's; on a
    value it cannot serialise it raises ([PicklingError], [TypeError],
    [RecursionError] for a nesting too deep). *)
Variable pickle_dumps : pyval -> PyExn + list byte.

Variable self : SkyServeController.

(** [POST /controller/update_num_requests] *)
Definition update_num_requests (request : Request) : Prog pyval :=
  request_data <- request_json request ;;
  num_requests <- getitem request_data "num_requests" ;;
  logger_info (LogReceivedRequest request_data) ;;
  (if isinstance_RequestRateAutoscaler self
   then call (SetNumRequests num_requests)
   else Ret tt) ;;
  Ret message_Success.

(** [GET /controller/get_autoscaler_query_interval] *)
Definition get_autoscaler_query_interval : Prog pyval :=
  if isinstance_RequestRateAutoscaler self
  then
    query_interval <- call GetQueryInterval ;;
    Ret (PDict [("query_interval", query_interval)])
  else Ret (PDict [("query_interval", PNone)]).

(** [GET /controller/get_ready_replicas] *)
Definition get_ready_replicas : Prog pyval :=
  ready_replicas <- call GetReadyReplicas ;;
  Ret (PDict [("ready_replicas", ready_replicas)]).

(** [base64.b64encode(pickle.dumps(v)).decode('utf-8')] *)
Definition encode_value (v : pyval) : Prog pyval :=
  match pickle_dumps v with
  | inl e => Raise e
  | inr pickled =>
      match decode_utf8 (b64encode pickled) with
      | Some s => Ret (PStr s)
      | None => Raise UnicodeDecodeError
      end
  end.

(** [{k: encode(v) for k, v in d.items()}] *)
Fixpoint encode_items (kv : list (string * pyval))
  : Prog (list (string * pyval)) :=
  match kv with
  | [] => Ret []
  | (k, v) :: rest =>
      s <- encode_value v ;;
      rest' <- encode_items rest ;;
      Ret ((k, s) :: rest')
  end.

(** [GET /controller/get_latest_info] *)
Definition get_latest_info : Prog pyval :=
  replica_info <- call (GetReplicaInfo true) ;;
  uptime <- call GetUptime ;;
  version <- call GetLatestVersion ;;
  let latest_info :=
    [("replica_info", replica_info); ("uptime", uptime);
     ("version", version)] in
  latest_info <- encode_items latest_info ;;
  Ret (PDict latest_info).

(** [POST /controller/update_service] *)
Definition update_service (request : Request) : Prog pyval :=
  if autoscaler_is_None self
  then Raise (ValueError "Update service is not allowed without autoscaler.")
  else
    request_data <- request_json request ;;
    version <- getitem request_data "version" ;;
    separate_replicas <- getitem request_data "separate_replicas" ;;
    logger_info (LogUpdateToVersion version) ;;
    call (SetSeparateReplicas separate_replicas) ;;
    latest_task_yaml <-
      call (GenerateRemoteTaskYamlFileName (service_name self) version true) ;;
    service <- call (FromYaml latest_task_yaml) ;;
    logger_info (LogServiceSpec service) ;;
    call (UpdateVersion version service) ;;
    call (UpdateSpec service) ;;
    Ret message_Success.

(** [POST /controller/terminate]; [del request] drops the argument. *)
Definition terminate (request : Request) : Prog pyval :=
  logger_info LogTerminatingService ;;
  (if negb (autoscaler_is_None self)
   then
     logger_info LogTerminateAutoscaler ;;
     call AutoscalerTerminate
   else Ret tt) ;;
  msg <- call InfraTerminate ;;
  Ret (PDict [("message", msg)]).

(** The part of [run] that starts the background threads before the
    HTTP server takes over. *)
Definition run_startup : Prog unit :=
  call StartReplicaProber ;;
  (if negb (autoscaler_is_None self) then call AutoscalerStart else Ret tt) ;;
  logger_info (LogControllerStarted (port self)).

End Handlers.

(** ** Start-up wiring ([__main__]) *)

(** The command-line arguments. *)
Record Args : Type := {
  args_service_name : string;
  args_version : Z;
  args_controller_port : Z
}.

(** The keyword arguments [__main__] passes to
    [autoscalers.RequestRateAutoscaler]. *)
Module Kwargs.
Record t : Type := {
  auto_restart : pyval;
  frequency : pyval;
  min_nodes : pyval;
  max_nodes : pyval;
  upper_threshold : pyval;
  lower_threshold : pyval;
  cooldown : pyval;
  query_interval : pyval
}.
End Kwargs.

Definition autoscaler_kwargs (service_spec : SkyServiceSpec) : Kwargs.t :=
  {| Kwargs.auto_restart := auto_restart service_spec;
     Kwargs.frequency := PInt 20;
     Kwargs.min_nodes := min_replicas service_spec;
     Kwargs.max_nodes := max_replicas service_spec;
     Kwargs.upper_threshold := qps_upper_threshold service_spec;
     Kwargs.lower_threshold := qps_lower_threshold service_spec;
     Kwargs.cooldown := PInt 60;
     Kwargs.query_interval := PInt 60 |}.

(** [SkyServeController(args.service_name, args.controller_port,
    _infra_provider, _autoscaler)] *)
Definition main_controller (args : Args) : SkyServeController :=
  {| service_name := args_service_name args;
     port := args_controller_port args;
     autoscaler := Some RequestRateAutoscaler |}.

(** A start-up value is taken from the specification when some change
    of the specification changes it. *)
Definition taken_from_spec (f : Kwargs.t -> pyval) : Prop :=
  exists s1 s2 : SkyServiceSpec,
    f (autoscaler_kwargs s1) <> f (autoscaler_kwargs s2).

(** ** A model of the collaborators

    The infra provider ([sky/serve/infra_providers.py]), the autoscaler
    ([sky/serve/autoscalers.py]) and the specification loader are not
    part of this file's source; the definitions of this module follow
    the design document. *)
Module FleetModel.

(** Modelled from the spec: the lifecycle status of a replica record
    (section 3, ReplicaRecord). *)
Inductive Status : Type :=
| Provisioning | Ready | Unready | Restarting | Terminating | Terminated.

(** Modelled from the spec: ReplicaRecord (section 3): identity,
    version, status, last-probe and launch timestamps. *)
Record ReplicaRecord : Type := {
  identity : nat;
  version : Z;
  status : Status;
  last_probe : Z;
  launched : Z
}.

(** Modelled from the spec: FleetState (section 3), the part of the
    infra provider the controller reaches: the ordered replica
    records, the target version, the [separate_replicas] flag and the
    closed mark set by the drain; [deprovisioned] lists the identities
    handed to the Provisioner's [deprovision], in order. *)
Record FleetState : Type := {
  replicas : list ReplicaRecord;
  target_version : pyval;
  separate_replicas : pyval;
  closed : bool;
  deprovisioned : list nat
}.

(** Modelled from the spec: the Autoscaler's mutable parameters
    (section 4.3): the policy, the query interval, the load counter
    and whether the decision loop runs. *)
Record AutoscalerState : Type := {
  policy : SkyServiceSpec;
  interval : pyval;
  num_requests : pyval;
  running : bool
}.

(** Modelled from the spec: everything the collaborators hold; the
    specification source (section 6) is a table of specifications
    keyed by file name. *)
Record World : Type := {
  fleet : FleetState;
  scaler : AutoscalerState;
  uptime : pyval;
  yaml_files : list (string * SkyServiceSpec)
}.

(** Modelled from the spec: the status tests and the transition to
    Terminated used by the drain. *)
Definition is_terminated (r : ReplicaRecord) : bool :=
  match status r with Terminated => true | _ => false end.

Definition is_ready (r : ReplicaRecord) : bool :=
  match status r with Ready => true | _ => false end.

Definition mark_terminated (r : ReplicaRecord) : ReplicaRecord :=
  {| identity := identity r; version := version r; status := Terminated;
     last_probe := last_probe r; launched := launched r |}.

(** Modelled from the spec: [terminateAll] (section 4.1): every
    replica that is not yet Terminated is deprovisioned and ends
    Terminated (confirmed or force-marked), and the fleet is closed. *)
Definition terminate_all (f : FleetState) : FleetState :=
  {| replicas := map mark_terminated (replicas f);
     target_version := target_version f;
     separate_replicas := separate_replicas f;
     closed := true;
     deprovisioned :=
       deprovisioned f
       ++ map identity (filter (fun r => negb (is_terminated r)) (replicas f)) |}.

(** Modelled from the spec: [setSeparateReplicas] (section 4.1). *)
Definition set_separate_replicas (v : pyval) (f : FleetState) : FleetState :=
  {| replicas := replicas f; target_version := target_version f;
     separate_replicas := v; closed := closed f;
     deprovisioned := deprovisioned f |}.

(** Modelled from the spec: [beginRollout] (section 4.1): future
    creations target the new version. *)
Definition begin_rollout (v : pyval) (f : FleetState) : FleetState :=
  {| replicas := replicas f; target_version := v;
     separate_replicas := separate_replicas f; closed := closed f;
     deprovisioned := deprovisioned f |}.

(** Modelled from the spec: [readyReplicas] (section 4.1). *)
Definition ready_replicas (f : FleetState) : pyval :=
  PList (map (fun r => PInt (Z.of_nat (identity r)))
             (filter is_ready (replicas f))).

Definition status_name (s : Status) : string :=
  match s with
  | Provisioning => "PROVISIONING" | Ready => "READY" | Unready => "UNREADY"
  | Restarting => "RESTARTING" | Terminating => "TERMINATING"
  | Terminated => "TERMINATED"
  end.

(** Modelled from the spec: [listReplicas(verbose)] (section 4.1);
    the verbose form includes the timestamps. *)
Definition replica_info (verbose : bool) (f : FleetState) : pyval :=
  PList (map (fun r =>
                PDict ([("replica_id", PInt (Z.of_nat (identity r)));
                        ("version", PInt (version r));
                        ("status", PStr (status_name (status r)))]
                       ++ if verbose
                          then [("last_probe", PInt (last_probe r));
                                ("launched", PInt (launched r))]
                          else []))
             (replicas f)).

Definition with_fleet (f : FleetState) (w : World) : World :=
  {| fleet := f; scaler := scaler w; uptime := uptime w;
     yaml_files := yaml_files w |}.

Definition with_scaler (a : AutoscalerState) (w : World) : World :=
  {| fleet := fleet w; scaler := a; uptime := uptime w;
     yaml_files := yaml_files w |}.

(** Modelled from the spec: the Autoscaler's public contract
    (section 4.3): [setNumRequests], [updateSpec], [terminate]. *)
Definition set_num_requests (n : pyval) (a : AutoscalerState) : AutoscalerState :=
  {| policy := policy a; interval := interval a; num_requests := n;
     running := running a |}.

Definition update_spec (s : SkyServiceSpec) (a : AutoscalerState) : AutoscalerState :=
  {| policy := s; interval := interval a; num_requests := num_requests a;
     running := running a |}.

Definition set_running (b : bool) (a : AutoscalerState) : AutoscalerState :=
  {| policy := policy a; interval := interval a;
     num_requests := num_requests a; running := b |}.

Definition version_text (v : pyval) : string :=
  match v with
  | PInt z => NilZero.string_of_int (Z.to_int z)
  | PStr s => s
  | _ => ""
  end.

(** Modelled from the spec: the specification source is keyed by
    version (section 6); the file name is built from the service name
    and the version. *)
Definition yaml_file_name (name : string) (v : pyval) : string :=
  name ++ "_v" ++ version_text v ++ ".yaml".

Fixpoint find_file (files : list (string * SkyServiceSpec)) (path : string)
  : option SkyServiceSpec :=
  match files with
  | [] => None
  | (p, s) :: rest => if String.eqb p path then Some s else find_file rest path
  end.

(** Modelled from the spec: once the drain has begun, mutating
    administrative calls fail with a "service terminating" error
    (section 5). *)
Definition guarded (w : World) (w' : World) : (PyExn + unit) * World :=
  if closed (fleet w)
  then (inl (CollaboratorError "service terminating"), w)
  else (inr tt, w').

(** Modelled from the spec: the contracts of the Fleet Store
    (section 4.1), the Autoscaler (section 4.3) and the specification
    source (section 6), as one implementation of the collaborator calls;
    [drain_message] is the status message of a completed drain. *)
Definition handler (drain_message : pyval) : Handler World :=
  fun X c w =>
    match c in Cmd X return (PyExn + X) * World with
    | GetReadyReplicas => (inr (ready_replicas (fleet w)), w)
    | GetReplicaInfo verbose => (inr (replica_info verbose (fleet w)), w)
    | GetUptime => (inr (uptime w), w)
    | GetLatestVersion => (inr (target_version (fleet w)), w)
    | SetSeparateReplicas v =>
        guarded w (with_fleet (set_separate_replicas v (fleet w)) w)
    | UpdateVersion v _ =>
        guarded w (with_fleet (begin_rollout v (fleet w)) w)
    | InfraTerminate =>
        (inr drain_message, with_fleet (terminate_all (fleet w)) w)
    | StartReplicaProber => (inr tt, w)
    | SetNumRequests n =>
        (inr tt, with_scaler (set_num_requests n (scaler w)) w)
    | GetQueryInterval => (inr (interval (scaler w)), w)
    | UpdateSpec s => (inr tt, with_scaler (update_spec s (scaler w)) w)
    | AutoscalerTerminate =>
        (inr tt, with_scaler (set_running false (scaler w)) w)
    | AutoscalerStart =>
        (inr tt, with_scaler (set_running true (scaler w)) w)
    | GenerateRemoteTaskYamlFileName name v _ =>
        (inr (yaml_file_name name v), w)
    | FromYaml path =>
        match find_file (yaml_files w) path with
        | Some s => (inr s, w)
        | None => (inl (FileNotFoundError path), w)
        end
    end.

(** A small fleet used in the examples: version 1 with one Ready, one
    Provisioning and one already Terminated replica. *)
Definition spec_v1 : SkyServiceSpec :=
  {| auto_restart := PBool true; min_replicas := PInt 1;
     max_replicas := PInt 5; qps_upper_threshold := PInt 10;
     qps_lower_threshold := PInt 2 |}.

Definition spec_v2 : SkyServiceSpec :=
  {| auto_restart := PBool false; min_replicas := PInt 2;
     max_replicas := PInt 8; qps_upper_threshold := PInt 20;
     qps_lower_threshold := PInt 4 |}.

Definition world0 : World :=
  {| fleet :=
       {| replicas :=
            [ {| identity := 1; version := 1; status := Ready;
                 last_probe := 100; launched := 10 |};
              {| identity := 2; version := 1; status := Provisioning;
                 last_probe := 0; launched := 90 |};
              {| identity := 3; version := 1; status := Terminated;
                 last_probe := 50; launched := 5 |} ];
          target_version := PInt 1;
          separate_replicas := PBool false;
          closed := false;
          deprovisioned := [3%nat] |};
     scaler := {| policy := spec_v1; interval := PInt 60;
                  num_requests := PInt 0; running := true |};
     uptime := PInt 1234;
     yaml_files := [("svc_v1.yaml", spec_v1); ("svc_v2.yaml", spec_v2)] |}.

End FleetModel.

(** Example controllers and requests. *)
Definition controller_rate : SkyServeController :=
  {| service_name := "svc"; port := 30001;
     autoscaler := Some RequestRateAutoscaler |}.

Definition controller_base : SkyServeController :=
  {| service_name := "svc"; port := 30001; autoscaler := Some Autoscaler |}.

Definition controller_fixed : SkyServeController :=
  {| service_name := "svc"; port := 30001; autoscaler := None |}.

Definition request_load (n : Z) : Request :=
  {| body := Some (PDict [("num_requests", PInt n)]);
     json_error := JSONDecodeError |}.

Definition request_update (v : Z) (separate : bool) : Request :=
  {| body := Some (PDict [("version", PInt v);
                          ("separate_replicas", PBool separate)]);
     json_error := JSONDecodeError |}.

Definition request_empty : Request :=
  {| body := None; json_error := JSONDecodeError |}.

(** A body that is not UTF-8 text, such as the single byte 0xff. *)
Definition request_not_utf8 : Request :=
  {| body := None; json_error := UnicodeDecodeError |}.

(** A body that is JSON but not an object: the empty array. *)
Definition request_array : Request :=
  {| body := Some (PList []); json_error := JSONDecodeError |}.

(** ** Vocabulary of the properties *)

(** The calls of a trace that change fleet state during a rollout. *)
Definition is_mutation (c : Call) : bool :=
  match c with
  | Called c =>
      match c with
      | SetSeparateReplicas _ | UpdateVersion _ _ | UpdateSpec _ => true
      | _ => false
      end
  end.

Definition mutations (tr : list Call) : list Call := filter is_mutation tr.

(** The three mutations of a rollout, in the order the handler issues
    them. *)
Definition rollout_mutations (sr v : pyval) (s : SkyServiceSpec) : list Call :=
  [Called (SetSeparateReplicas sr); Called (UpdateVersion v s);
   Called (UpdateSpec s)].

(** All of the rollout's mutations were applied, or none. *)
Definition all_or_nothing (tr : list Call) : Prop :=
  mutations tr = [] \/ exists sr v s, mutations tr = rollout_mutations sr v s.

(** The two fields [update_service] reads from its request body. *)
Definition update_fields (request : Request) : option (pyval * pyval) :=
  match body request with
  | Some (PDict kv) =>
      match dict_get kv "version", dict_get kv "separate_replicas" with
      | Some v, Some sr => Some (v, sr)
      | _, _ => None
      end
  | _ => None
  end.

(** The collaborator calls of a complete [terminate]. *)
Definition terminate_calls (self : SkyServeController) : list Call :=
  (if negb (autoscaler_is_None self) then [Called AutoscalerTerminate] else [])
  ++ [Called InfraTerminate].

(** A call returns (does not raise) in every state. *)
Definition returns {W X : Type} (h : Handler W) (c : Cmd X) : Prop :=
  forall w, exists x w', h X c w = (inr x, w').

(** What a client does with a field of the status payload:
    [pickle.loads(base64.b64decode(field))]. *)
Definition decode_field (pickle_loads : list byte -> option pyval)
  (field : pyval) : option pyval :=
  match field with
  | PStr s =>
      match b64decode_str s with
      | Some bs => pickle_loads bs
      | None => None
      end
  | _ => None
  end.

(** The pickle opcodes of [None], the empty list and a one-byte
    integer, enough to run the status payload on a small fleet; every
    other value is refused. *)
Definition small_pickle_dumps (v : pyval) : PyExn + list byte :=
  match v with
  | PNone => inr ["N"; "."]%byte
  | PList [] => inr ["]"; "."]%byte
  | PInt z =>
      match Byte.of_N (Z.to_N z) with
      | Some b => inr ["K"%byte; b; "."%byte]
      | None => inl PicklingError
      end
  | _ => inl PicklingError
  end.

Definition small_pickle_loads (bs : list byte) : option pyval :=
  match bs with
  | [op; stop] =>
      if Byte.eqb op "N"%byte then Some PNone
      else if Byte.eqb op "]"%byte then Some (PList [])
      else None
  | [op; b; stop] =>
      if Byte.eqb op "K"%byte then Some (PInt (Z.of_N (Byte.to_N b)))
      else None
  | _ => None
  end.

(** A fleet with no replica yet. *)
Definition world_empty : FleetModel.World :=
  {| FleetModel.fleet :=
       {| FleetModel.replicas := [];
          FleetModel.target_version := PInt 1;
          FleetModel.separate_replicas := PBool false;
          FleetModel.closed := false;
          FleetModel.deprovisioned := [] |};
     FleetModel.scaler := FleetModel.scaler FleetModel.world0;
     FleetModel.uptime := PInt 42;
     FleetModel.yaml_files := FleetModel.yaml_files FleetModel.world0 |}.

(** A rollout to version 7, whose specification file does not exist. *)
Definition rollout_missing_yaml : Outcome FleetModel.World pyval :=
  run (FleetModel.handler PNone)
      (update_service controller_rate (request_update 7 true))
      FleetModel.world0.

(** A load report to a controller whose autoscaler is of the base
    class. *)
Definition load_report_base : Outcome FleetModel.World pyval :=
  run (FleetModel.handler PNone)
      (update_num_requests controller_base (request_load 7))
      FleetModel.world0.

(** A load report to a controller with a request-rate autoscaler. *)
Definition load_report_rate : Outcome FleetModel.World pyval :=
  run (FleetModel.handler PNone)
      (update_num_requests controller_rate (request_load 7))
      FleetModel.world0.

(** The scaling interval of a controller without autoscaler. *)
Definition interval_fixed : Outcome FleetModel.World pyval :=
  run (FleetModel.handler PNone)
      (get_autoscaler_query_interval controller_fixed)
      FleetModel.world0.

(** ** The access-log filter *)

(** A [logging.LogRecord], as far as the filter reads it. *)
Record LogRecord : Type := {
  getMessage : string
}.

(** [sub in s] on strings: [sub] occurs somewhere in [s]. *)
Fixpoint str_in (sub s : string) : bool :=
  match s with
  | EmptyString => prefix sub s
  | String _ s' => prefix sub s || str_in sub s'
  end.

Module SuppressSuccessGetAccessLogsFilter.
Definition filter (record : LogRecord) : bool :=
  let message := getMessage record in
  negb (str_in "GET" message && str_in "200" message).
End SuppressSuccessGetAccessLogsFilter.

(** The filters [run] leaves on the [uvicorn.access] logger: the
    suppressing filter, unless [SHOW_DEBUG_INFO] is set. *)
Definition access_log_filters (show_debug_info : bool)
  : list (LogRecord -> bool) :=
  if negb show_debug_info
  then [SuppressSuccessGetAccessLogsFilter.filter]
  else [].

(** [logging.Filterer.filter]: a record passes when no filter rejects
    it. *)
Definition Filterer_filter (filters : list (LogRecord -> bool))
  (record : LogRecord) : bool :=
  forallb (fun f => f record) filters.

(** ** More vocabulary *)

(** The collaborator calls that only read. *)
Definition is_getter (c : Call) : bool :=
  match c with
  | Called c =>
      match c with
      | GetReadyReplicas | GetReplicaInfo _ | GetUptime | GetLatestVersion
      | GetQueryInterval => true
      | _ => false
      end
  end.

(** The collaborator calls of a complete [run_startup]. *)
Definition startup_calls (self : SkyServeController) : list Call :=
  Called StartReplicaProber
  :: (if negb (autoscaler_is_None self) then [Called AutoscalerStart] else []).

(** Collaborators whose autoscaler cannot be stopped: its [terminate]
    raises, every other call behaves as in [FleetModel.handler]. *)
Definition handler_autoscaler_stuck : Handler FleetModel.World :=
  fun X c w =>
    match c in Cmd X return (PyExn + X) * FleetModel.World with
    | AutoscalerTerminate => (inl (CollaboratorError "autoscaler stuck"), w)
    | c' => FleetModel.handler PNone c' w
    end.

(** A character of Base64 text: one of the alphabet, or the padding. *)
Definition is_b64_text (c : byte) : Prop := In c b64_alphabet \/ c = b64_pad.

(** * Properties *)

(** ** Base64 text decodes to the bytes it encodes *)

Section Base64.

Local Open Scope N_scope.

(** A boolean property checked on the 64 indices holds below 64. *)
Lemma below_64 (P : N -> bool) :
  forallb (fun n => P (N.of_nat n)) (seq 0 64) = true ->
  forall i, i < 64 -> P i = true.
Proof.
  intros Hall i Hi.
  rewrite forallb_forall in Hall.
  rewrite <- (N2Nat.id i).
  apply Hall, in_seq. lia.
Qed.

Lemma b64_index_char i : i < 64 -> b64_index (b64_char i) = Some i.
Proof.
  intros Hi.
  pose proof (@below_64
    (fun i => match b64_index (b64_char i) with
              | Some j => N.eqb j i
              | None => false
              end) eq_refl i Hi) as H.
  cbv beta in H.
  destruct (b64_index (b64_char i)) as [j|]; [|discriminate].
  apply N.eqb_eq in H. now subst.
Qed.

Lemma b64_char_not_pad i : i < 64 -> Byte.eqb (b64_char i) b64_pad = false.
Proof.
  intros Hi.
  pose proof (@below_64 (fun i => negb (Byte.eqb (b64_char i) b64_pad))
                eq_refl i Hi) as H.
  now apply negb_true_iff in H.
Qed.

Lemma b64_char_ascii i : i < 64 -> is_ascii (b64_char i) = true.
Proof. exact (@below_64 (fun i => is_ascii (b64_char i)) eq_refl i). Qed.

Lemma b64_pad_ascii : is_ascii b64_pad = true.
Proof. reflexivity. Qed.

Ltac byte_bounds :=
  repeat match goal with
         | a : byte |- _ =>
             lazymatch goal with
             | _ : Byte.to_N a <= 255 |- _ => fail
             | _ => pose proof (Byte.to_N_bounded a)
             end
         end.

Ltac div_mod_lia :=
  zify; Z.to_euclidean_division_equations; lia.

Lemma b64decode_full_encode (a b c : byte) :
  let n := Byte.to_N a * 65536 + Byte.to_N b * 256 + Byte.to_N c in
  b64decode_full (b64_char (n / 262144)) (b64_char ((n / 4096) mod 64))
                 (b64_char ((n / 64) mod 64)) (b64_char (n mod 64))
  = Some [a; b; c].
Proof.
  intros n. byte_bounds.
  assert (Hn : n < 16777216) by (subst n; lia).
  unfold b64decode_full.
  rewrite !b64_index_char by div_mod_lia.
  replace (n / 262144 * 262144 + (n / 4096) mod 64 * 4096
           + (n / 64) mod 64 * 64 + n mod 64) with n by div_mod_lia.
  replace (n / 65536) with (Byte.to_N a) by (subst n; div_mod_lia).
  replace ((n / 256) mod 256) with (Byte.to_N b) by (subst n; div_mod_lia).
  replace (n mod 256) with (Byte.to_N c) by (subst n; div_mod_lia).
  now rewrite !Byte.of_to_N.
Qed.

Lemma b64decode_pad1_encode (a b : byte) :
  let n := (Byte.to_N a * 256 + Byte.to_N b) * 4 in
  b64decode_pad1 (b64_char (n / 4096)) (b64_char ((n / 64) mod 64))
                 (b64_char (n mod 64))
  = Some [a; b].
Proof.
  intros n. byte_bounds.
  assert (Hn : n < 262144) by (subst n; lia).
  unfold b64decode_pad1.
  rewrite !b64_index_char by div_mod_lia.
  replace (n / 4096 * 4096 + (n / 64) mod 64 * 64 + n mod 64)
    with n by div_mod_lia.
  replace (n / 1024) with (Byte.to_N a) by (subst n; div_mod_lia).
  replace ((n / 4) mod 256) with (Byte.to_N b) by (subst n; div_mod_lia).
  now rewrite !Byte.of_to_N.
Qed.

Lemma b64decode_pad2_encode (a : byte) :
  let n := Byte.to_N a * 16 in
  b64decode_pad2 (b64_char (n / 64)) (b64_char (n mod 64)) = Some [a].
Proof.
  intros n. byte_bounds.
  assert (Hn : n < 4096) by (subst n; lia).
  unfold b64decode_pad2.
  rewrite !b64_index_char by div_mod_lia.
  replace ((n / 64 * 64 + n mod 64) / 16) with (Byte.to_N a)
    by (subst n; div_mod_lia).
  now rewrite Byte.of_to_N.
Qed.

(** Induction over a byte string three bytes at a time. *)
Lemma list_ind3 (A : Type) (P : list A -> Prop) :
  P [] -> (forall a, P [a]) -> (forall a b, P [a; b]) ->
  (forall a b c l, P l -> P (a :: b :: c :: l)) ->
  forall l, P l.
Proof.
  intros H0 H1 H2 H3.
  refine (fix F l := match l with
                     | [] => H0
                     | [a] => H1 a
                     | [a; b] => H2 a b
                     | a :: b :: c :: r => H3 a b c r (F r)
                     end).
Qed.

Lemma b64decode_b64encode (bs : list byte) :
  b64decode (b64encode bs) = Some bs.
Proof.
  induction bs as [|a|a b|a b c rest IH] using list_ind3.
  - reflexivity.
  - cbn [b64encode b64decode].
    rewrite Byte.byte_dec_lb by reflexivity.
    apply b64decode_pad2_encode.
  - cbn [b64encode b64decode]. byte_bounds.
    rewrite (Byte.byte_dec_lb (x:=b64_pad)) by reflexivity.
    rewrite b64_char_not_pad by div_mod_lia.
    apply b64decode_pad1_encode.
  - cbn [b64encode b64decode]. byte_bounds.
    rewrite b64_char_not_pad by div_mod_lia.
    rewrite b64decode_full_encode, IH. reflexivity.
Qed.

Lemma b64encode_ascii (bs : list byte) :
  forallb is_ascii (b64encode bs) = true.
Proof.
  induction bs as [|a|a b|a b c rest IH] using list_ind3;
    cbn [b64encode forallb]; byte_bounds;
    rewrite ?b64_char_ascii, ?b64_pad_ascii, ?IH by div_mod_lia;
    reflexivity.
Qed.

End Base64.

(** The text of a Base64 encoding, and what a client gets back from it. *)
Lemma decode_utf8_b64encode (bs : list byte) :
  decode_utf8 (b64encode bs) = Some (string_of_list_byte (b64encode bs)).
Proof. unfold decode_utf8. now rewrite b64encode_ascii. Qed.

Lemma b64decode_str_text (bs : list byte) :
  b64decode_str (string_of_list_byte (b64encode bs)) = Some bs.
Proof.
  unfold b64decode_str.
  now rewrite list_byte_of_string_of_list_byte, b64decode_b64encode.
Qed.

(** ** Rollout ([update_service]) *)

(** Case analysis on the outcome of the next collaborator call. *)
Ltac next_call h :=
  match goal with
  | |- context [h ?X ?c ?w] =>
      destruct (h X c w) as [[?e|?x] ?w] eqn:?; cbn
  | H : context [h ?X ?c ?w] |- _ =>
      destruct (h X c w) as [[?e|?x] ?w] eqn:?; cbn in H
  end.

(** C1: a rollout on a controller without autoscaler raises the
    configuration error before anything else happens: no collaborator is
    called, nothing is logged, and the collaborators' state is the one
    the call started from. *)
Theorem update_service_without_autoscaler_rejected :
  forall (W : Type) (h : Handler W) (name : string) (p : Z)
         (request : Request) (w : W),
    run h (update_service
             {| service_name := name; port := p; autoscaler := None |}
             request) w
    = {| calls := []; logged := [];
         result :=
           inl (ValueError "Update service is not allowed without autoscaler.");
         final := w |}.
Proof. reflexivity. Qed.

(** What [update_service] does after its request has been read: the
    five collaborator calls, each of which may raise. *)
Lemma update_service_unfold (self : SkyServeController) (request : Request)
      (v sr : pyval) :
  autoscaler_is_None self = false ->
  update_fields request = Some (v, sr) ->
  update_service self request =
  Log (LogUpdateToVersion v)
    (Do (SetSeparateReplicas sr) (fun _ =>
     Do (GenerateRemoteTaskYamlFileName (service_name self) v true) (fun path =>
     Do (FromYaml path) (fun service =>
     Log (LogServiceSpec service)
       (Do (UpdateVersion v service) (fun _ =>
        Do (UpdateSpec service) (fun _ => Ret message_Success))))))).
Proof.
  unfold update_service, update_fields, request_json.
  intros -> Hf.
  destruct (body request) as [[| | | | | |kv]|]; try discriminate.
  cbn. unfold getitem.
  destruct (dict_get kv "version"); [|discriminate].
  destruct (dict_get kv "separate_replicas"); [|discriminate].
  now inversion Hf.
Qed.

(** A request that cannot be read stops [update_service] before its
    first collaborator call. *)
Lemma update_service_unreadable (W : Type) (h : Handler W)
      (self : SkyServeController) (request : Request) (w : W) :
  autoscaler_is_None self = true \/ update_fields request = None ->
  exists e,
    run h (update_service self request) w
    = {| calls := []; logged := []; result := inl e; final := w |}.
Proof.
  unfold update_service, update_fields, request_json.
  destruct (autoscaler_is_None self); [intros _; eexists; reflexivity|].
  intros [H|H]; [discriminate|].
  destruct (body request) as [[| | | | | |kv]|]; cbn;
    try (eexists; reflexivity).
  unfold getitem.
  destruct (dict_get kv "version"); cbn; [|eexists; reflexivity].
  destruct (dict_get kv "separate_replicas"); cbn; [discriminate|].
  eexists; reflexivity.
Qed.

(** C2, as stated, fails: a rollout to a version whose specification
    file is missing surfaces [FileNotFoundError] after
    [set_separate_replicas] has been applied and before [update_version]
    and [update_spec]; the flag stays changed, the version does not. *)
Lemma update_service_partial_mutation :
  result rollout_missing_yaml = inl (FileNotFoundError "svc_v7.yaml")
  /\ mutations (calls rollout_missing_yaml)
     = [Called (SetSeparateReplicas (PBool true))]
  /\ ~ all_or_nothing (calls rollout_missing_yaml)
  /\ FleetModel.separate_replicas (FleetModel.fleet FleetModel.world0)
     = PBool false
  /\ FleetModel.separate_replicas
       (FleetModel.fleet (final rollout_missing_yaml)) = PBool true
  /\ FleetModel.target_version
       (FleetModel.fleet (final rollout_missing_yaml)) = PInt 1.
Proof.
  repeat split; try reflexivity.
  intros [H | (sr & v & s & H)]; cbv in H; discriminate.
Qed.

(** C2, amended: when [update_service] surfaces an error, the mutations
    applied so far are a prefix, in order, of [set_separate_replicas],
    [update_version], [update_spec], and nothing is undone; no
    collaborator has been called, and the state is unchanged, when and
    only when the error comes before the first of them (no autoscaler,
    or a request whose fields cannot be read); otherwise
    [set_separate_replicas] has been called with the request's flag,
    and the mutations are a prefix of the rollout for the request's
    version. *)
Theorem update_service_error_prefix :
  forall (W : Type) (h : Handler W) (self : SkyServeController)
         (request : Request) (w : W) (e : PyExn),
    result (run h (update_service self request) w) = inl e ->
    (exists sr v s rest,
        rollout_mutations sr v s
        = mutations (calls (run h (update_service self request) w)) ++ rest)
    /\ (autoscaler_is_None self = true \/ update_fields request = None ->
        calls (run h (update_service self request) w) = []
        /\ final (run h (update_service self request) w) = w)
    /\ (calls (run h (update_service self request) w) = [] ->
        autoscaler_is_None self = true \/ update_fields request = None)
    /\ (forall v sr,
          autoscaler_is_None self = false ->
          update_fields request = Some (v, sr) ->
          exists s rest tail,
            calls (run h (update_service self request) w)
            = Called (SetSeparateReplicas sr) :: tail
            /\ rollout_mutations sr v s
               = mutations (calls (run h (update_service self request) w))
                 ++ rest).
Proof.
  intros W h self request w e He.
  destruct (autoscaler_is_None self) eqn:Hn;
    [|destruct (update_fields request) as [[v sr]|] eqn:Hf].
  - destruct (@update_service_unreadable W h self request w (or_introl Hn))
      as [e' ->].
    split; [|split; [|split]].
    + exists PNone, PNone, FleetModel.spec_v1,
        (rollout_mutations PNone PNone FleetModel.spec_v1).
      reflexivity.
    + intros _. split; reflexivity.
    + intros _. now left.
    + intros ? ? H. discriminate.
  - rewrite (@update_service_unfold self request v sr Hn Hf) in *. cbn in *.
    assert (Hcases :
      exists s rest tail,
        calls (run h
          (Do (SetSeparateReplicas sr) (fun _ =>
           Do (GenerateRemoteTaskYamlFileName (service_name self) v true)
              (fun path =>
           Do (FromYaml path) (fun service =>
           Log (LogServiceSpec service)
             (Do (UpdateVersion v service) (fun _ =>
              Do (UpdateSpec service) (fun _ => Ret message_Success)))))))
          w)
        = Called (SetSeparateReplicas sr) :: tail
        /\ rollout_mutations sr v s
           = mutations (Called (SetSeparateReplicas sr) :: tail) ++ rest).
    { cbn.
      next_call h.
      { exists FleetModel.spec_v1. eexists _, _. split; reflexivity. }
      next_call h.
      { exists FleetModel.spec_v1. eexists _, _. split; reflexivity. }
      next_call h.
      { exists FleetModel.spec_v1. eexists _, _. split; reflexivity. }
      next_call h.
      { exists x1. eexists _, _. split; reflexivity. }
      next_call h.
      { exists x1. eexists _, _. split; reflexivity. }
      exists x1. eexists _, _. split; reflexivity. }
    destruct Hcases as (s & rest & tail & Hc & Hm).
    cbn in Hc. rewrite Hc.
    split; [|split; [|split]].
    + exists sr, v, s, rest. exact Hm.
    + intros [H|H]; discriminate.
    + discriminate.
    + intros v' sr' _ H. inversion H. subst.
      exists s, rest, tail. split; [reflexivity | exact Hm].
  - destruct (@update_service_unreadable W h self request w (or_intror Hf))
      as [e' ->].
    split; [|split; [|split]].
    + exists PNone, PNone, FleetModel.spec_v1,
        (rollout_mutations PNone PNone FleetModel.spec_v1).
      reflexivity.
    + intros _. split; reflexivity.
    + intros _. now right.
    + intros ? ? _ H. discriminate.
Qed.

Lemma update_service_error_prefix_witness :
  (exists sr v s rest,
      rollout_mutations sr v s = mutations (calls rollout_missing_yaml) ++ rest)
  /\ (autoscaler_is_None controller_rate = true
      \/ update_fields (request_update 7 true) = None ->
      calls rollout_missing_yaml = []
      /\ final rollout_missing_yaml = FleetModel.world0)
  /\ (calls rollout_missing_yaml = [] ->
      autoscaler_is_None controller_rate = true
      \/ update_fields (request_update 7 true) = None)
  /\ (forall v sr,
        autoscaler_is_None controller_rate = false ->
        update_fields (request_update 7 true) = Some (v, sr) ->
        exists s rest tail,
          calls rollout_missing_yaml
          = Called (SetSeparateReplicas sr) :: tail
          /\ rollout_mutations sr v s
             = mutations (calls rollout_missing_yaml) ++ rest).
Proof.
  apply (@update_service_error_prefix FleetModel.World (FleetModel.handler PNone)
           controller_rate (request_update 7 true) FleetModel.world0
           (FileNotFoundError "svc_v7.yaml")).
  reflexivity.
Defined.

(** C3: a rollout that succeeds has made exactly these collaborator
    calls, in this order: [set_separate_replicas], the loading of the
    new specification, [update_version], and only then the autoscaler's
    [update_spec]; it answers with the success message. *)
Theorem update_service_order :
  forall (W : Type) (h : Handler W) (self : SkyServeController)
         (request : Request) (w : W) (resp : pyval),
    result (run h (update_service self request) w) = inr resp ->
    exists v sr path service,
      update_fields request = Some (v, sr)
      /\ calls (run h (update_service self request) w)
         = [Called (SetSeparateReplicas sr);
            Called (GenerateRemoteTaskYamlFileName (service_name self) v true);
            Called (FromYaml path);
            Called (UpdateVersion v service);
            Called (UpdateSpec service)]
      /\ mutations (calls (run h (update_service self request) w))
         = rollout_mutations sr v service
      /\ resp = message_Success.
Proof.
  intros W h self request w resp Hr.
  destruct (autoscaler_is_None self) eqn:Hn;
    [|destruct (update_fields request) as [[v sr]|] eqn:Hf].
  - destruct (@update_service_unreadable W h self request w (or_introl Hn))
      as [e' He]. rewrite He in Hr. discriminate.
  - rewrite (@update_service_unfold self request v sr Hn Hf) in *. cbn in *.
    next_call h; [discriminate|].
    next_call h; [discriminate|].
    next_call h; [discriminate|].
    next_call h; [discriminate|].
    next_call h; [discriminate|].
    exists v, sr, x0, x1. repeat split. now inversion Hr.
  - destruct (@update_service_unreadable W h self request w (or_intror Hf))
      as [e' He]. rewrite He in Hr. discriminate.
Qed.

Lemma update_service_order_witness :
  exists v sr path service,
    update_fields (request_update 2 true) = Some (v, sr)
    /\ calls (run (FleetModel.handler PNone)
                  (update_service controller_rate (request_update 2 true))
                  FleetModel.world0)
       = [Called (SetSeparateReplicas sr);
          Called (GenerateRemoteTaskYamlFileName
                    (service_name controller_rate) v true);
          Called (FromYaml path);
          Called (UpdateVersion v service);
          Called (UpdateSpec service)]
    /\ mutations (calls (run (FleetModel.handler PNone)
                             (update_service controller_rate
                                             (request_update 2 true))
                             FleetModel.world0))
       = rollout_mutations sr v service
    /\ message_Success = message_Success.
Proof.
  apply (@update_service_order FleetModel.World (FleetModel.handler PNone)
           controller_rate (request_update 2 true) FleetModel.world0
           message_Success).
  reflexivity.
Defined.

(** ** Load reports ([update_num_requests]) *)

(** C4, as stated, fails: the count is forwarded only to an autoscaler
    of class [RequestRateAutoscaler].  With an autoscaler of the base
    class present, the report is acknowledged and nothing is
    forwarded. *)
Lemma update_num_requests_base_not_forwarded :
  autoscaler controller_base <> None
  /\ body (request_load 7) = Some (PDict [("num_requests", PInt 7)])
  /\ calls load_report_base = []
  /\ calls load_report_base <> [Called (SetNumRequests (PInt 7))]
  /\ result load_report_base = inr message_Success
  /\ final load_report_base = FleetModel.world0.
Proof. repeat split; try reflexivity; discriminate. Qed.

(** C4, amended: a load report carrying the count [n] is forwarded with
    [set_num_requests] exactly when the autoscaler is a
    [RequestRateAutoscaler]; in every other case (no autoscaler, or an
    autoscaler of another class) no collaborator is called, the state is
    unchanged and the success acknowledgement is returned. *)
Theorem update_num_requests_forwarding :
  forall (W : Type) (h : Handler W) (self : SkyServeController)
         (request : Request) (data : list (string * pyval)) (n : pyval) (w : W),
    body request = Some (PDict data) ->
    dict_get data "num_requests" = Some n ->
    let o := run h (update_num_requests self request) w in
    logged o = [LogReceivedRequest (PDict data)]
    /\ (isinstance_RequestRateAutoscaler self = true ->
        calls o = [Called (SetNumRequests n)]
        /\ final o = snd (h unit (SetNumRequests n) w)
        /\ result o = match fst (h unit (SetNumRequests n) w) with
                      | inl e => inl e
                      | inr _ => inr message_Success
                      end)
    /\ (isinstance_RequestRateAutoscaler self = false ->
        calls o = [] /\ final o = w /\ result o = inr message_Success).
Proof.
  intros W h self request data n w Hb Hn.
  unfold update_num_requests, request_json, getitem.
  rewrite Hb. cbn. rewrite Hn. cbn.
  destruct (isinstance_RequestRateAutoscaler self); cbn.
  - destruct (h unit (SetNumRequests n) w) as [[e|[]] w']; cbn;
      repeat split; discriminate.
  - repeat split; discriminate.
Qed.

Lemma update_num_requests_forwarding_witness :
  logged load_report_rate
  = [LogReceivedRequest (PDict [("num_requests", PInt 7)])]
  /\ (isinstance_RequestRateAutoscaler controller_rate = true ->
      calls load_report_rate = [Called (SetNumRequests (PInt 7))]
      /\ final load_report_rate
         = snd (FleetModel.handler PNone (SetNumRequests (PInt 7))
                  FleetModel.world0)
      /\ result load_report_rate
         = match fst (FleetModel.handler PNone
                        (SetNumRequests (PInt 7)) FleetModel.world0) with
           | inl e => inl e
           | inr _ => inr message_Success
           end)
  /\ (isinstance_RequestRateAutoscaler controller_rate = false ->
      calls load_report_rate = [] /\ final load_report_rate = FleetModel.world0
      /\ result load_report_rate = inr message_Success).
Proof.
  apply (@update_num_requests_forwarding FleetModel.World
           (FleetModel.handler PNone) controller_rate (request_load 7)
           [("num_requests", PInt 7)] (PInt 7) FleetModel.world0);
    reflexivity.
Defined.

(** ** The scaling interval ([get_autoscaler_query_interval]) *)

(** C7, as stated, fails: without request-rate autoscaling the response
    carries [None] under [query_interval], not the value "disabled". *)
Lemma query_interval_without_autoscaler_is_None :
  isinstance_RequestRateAutoscaler controller_fixed = false
  /\ result interval_fixed = inr (PDict [("query_interval", PNone)])
  /\ result interval_fixed <> inr (PDict [("query_interval", PStr "disabled")]).
Proof. repeat split; discriminate. Qed.

(** C7, amended: the response is the dictionary with the single key
    [query_interval]; its value is what the autoscaler's
    [get_query_interval] returns when the autoscaler is a
    [RequestRateAutoscaler], and [None] otherwise, in which case no
    collaborator is called. *)
Theorem get_autoscaler_query_interval_response :
  forall (W : Type) (h : Handler W) (self : SkyServeController) (w : W),
    (isinstance_RequestRateAutoscaler self = true ->
     forall (q : pyval) (w' : W),
       h pyval GetQueryInterval w = (inr q, w') ->
       run h (get_autoscaler_query_interval self) w
       = {| calls := [Called GetQueryInterval]; logged := [];
            result := inr (PDict [("query_interval", q)]); final := w' |})
    /\ (isinstance_RequestRateAutoscaler self = false ->
        run h (get_autoscaler_query_interval self) w
        = {| calls := []; logged := [];
             result := inr (PDict [("query_interval", PNone)]); final := w |}).
Proof.
  intros W h self w. unfold get_autoscaler_query_interval.
  split; intros ->; [|reflexivity].
  intros q w' Hq. cbn. now rewrite Hq.
Qed.

Lemma get_autoscaler_query_interval_response_witness :
  run (FleetModel.handler PNone) (get_autoscaler_query_interval controller_rate)
      FleetModel.world0
  = {| calls := [Called GetQueryInterval]; logged := [];
       result := inr (PDict [("query_interval", PInt 60)]);
       final := FleetModel.world0 |}
  /\ run (FleetModel.handler PNone)
         (get_autoscaler_query_interval controller_base) FleetModel.world0
     = {| calls := []; logged := [];
          result := inr (PDict [("query_interval", PNone)]);
          final := FleetModel.world0 |}.
Proof.
  split.
  - apply (proj1 (@get_autoscaler_query_interval_response FleetModel.World
                    (FleetModel.handler PNone) controller_rate
                    FleetModel.world0));
      reflexivity.
  - apply (proj2 (@get_autoscaler_query_interval_response FleetModel.World
                    (FleetModel.handler PNone) controller_base
                    FleetModel.world0));
      reflexivity.
Defined.

(** ** Termination ([terminate]) *)

(** C5: in every call the collaborator calls made are an initial part
    of "stop the autoscaler (when there is one), then drain the fleet";
    a call that answers has made all of them, in that order, and its
    response is the message the drain returned; and the call answers
    whenever the two collaborator calls return. *)
Theorem terminate_order :
  forall (W : Type) (h : Handler W) (self : SkyServeController)
         (request : Request) (w : W),
    let o := run h (terminate self request) w in
    (exists rest, terminate_calls self = calls o ++ rest)
    /\ (forall resp, result o = inr resp ->
        calls o = terminate_calls self
        /\ exists msg w1,
            resp = PDict [("message", msg)]
            /\ h pyval InfraTerminate w1 = (inr msg, final o))
    /\ (returns h AutoscalerTerminate -> returns h InfraTerminate ->
        exists resp, result o = inr resp).
Proof.
  intros W h self request w.
  unfold terminate, terminate_calls.
  destruct (autoscaler_is_None self); cbn.
  - destruct (h pyval InfraTerminate w) as [[e|msg] w2] eqn:E2; cbn.
    + split; [exists []; reflexivity|].
      split; [discriminate|].
      intros _ H2. destruct (H2 w) as (x & w' & Hx). congruence.
    + split; [exists []; reflexivity|].
      split; [|eexists; reflexivity].
      intros resp Hr. inversion Hr. split; [reflexivity|].
      exists msg, w. split; [reflexivity|exact E2].
  - destruct (h unit AutoscalerTerminate w) as [[e|[]] w1] eqn:E1; cbn.
    + split; [eexists; reflexivity|].
      split; [discriminate|].
      intros H1 _. destruct (H1 w) as (x & w' & Hx). congruence.
    + destruct (h pyval InfraTerminate w1) as [[e|msg] w2] eqn:E2; cbn.
      * split; [exists []; reflexivity|].
        split; [discriminate|].
        intros _ H2. destruct (H2 w1) as (x & w' & Hx). congruence.
      * split; [exists []; reflexivity|].
        split; [|eexists; reflexivity].
        intros resp Hr. inversion Hr. split; [reflexivity|].
        exists msg, w1. split; [reflexivity|exact E2].
Qed.

Lemma returns_AutoscalerTerminate (m : pyval) :
  returns (FleetModel.handler m) AutoscalerTerminate.
Proof. intros w. eexists _, _. reflexivity. Qed.

Lemma returns_InfraTerminate (m : pyval) :
  returns (FleetModel.handler m) InfraTerminate.
Proof. intros w. eexists _, _. reflexivity. Qed.

Lemma terminate_order_witness :
  exists resp,
    result (run (FleetModel.handler (PStr "drained"))
                (terminate controller_rate request_empty) FleetModel.world0)
    = inr resp.
Proof.
  apply (proj2 (proj2 (@terminate_order FleetModel.World
                         (FleetModel.handler (PStr "drained")) controller_rate
                         request_empty FleetModel.world0))).
  - apply returns_AutoscalerTerminate.
  - apply returns_InfraTerminate.
Defined.

(** C10: [terminate] never looks at its request: two requests with
    different bodies give the same program, hence the same collaborator
    calls, log lines, response and final state. *)
Theorem terminate_ignores_request :
  forall (W : Type) (h : Handler W) (self : SkyServeController)
         (request1 request2 : Request) (w : W),
    terminate self request1 = terminate self request2
    /\ run h (terminate self request1) w = run h (terminate self request2) w.
Proof. intros. split; reflexivity. Qed.

(** ** Terminating twice *)

Lemma mark_terminated_idempotent (l : list FleetModel.ReplicaRecord) :
  map FleetModel.mark_terminated (map FleetModel.mark_terminated l)
  = map FleetModel.mark_terminated l.
Proof. rewrite map_map. apply map_ext. intros []; reflexivity. Qed.

Lemma no_live_replica_after_drain (l : list FleetModel.ReplicaRecord) :
  filter (fun r => negb (FleetModel.is_terminated r))
         (map FleetModel.mark_terminated l) = [].
Proof. induction l as [|r l IH]; [reflexivity|]. cbn. exact IH. Qed.

Lemma terminate_all_idempotent (f : FleetModel.FleetState) :
  FleetModel.terminate_all (FleetModel.terminate_all f)
  = FleetModel.terminate_all f.
Proof.
  unfold FleetModel.terminate_all. cbn.
  now rewrite mark_terminated_idempotent, no_live_replica_after_drain, app_nil_r.
Qed.

(** The drain hands to the Provisioner exactly the replicas that were
    not yet Terminated. *)
Lemma terminate_all_deprovisions_live (f : FleetModel.FleetState) (i : nat) :
  In i (FleetModel.deprovisioned (FleetModel.terminate_all f)) <->
  In i (FleetModel.deprovisioned f)
  \/ exists r, In r (FleetModel.replicas f)
               /\ FleetModel.is_terminated r = false
               /\ FleetModel.identity r = i.
Proof.
  unfold FleetModel.terminate_all. cbn.
  rewrite in_app_iff, in_map_iff.
  split; (intros [H|(r & H)]; [now left|right; exists r]).
  - destruct H as [Hi Hr]. apply filter_In in Hr as [Hr Ht].
    apply negb_true_iff in Ht. auto.
  - destruct H as (Hr & Ht & Hi). split; [exact Hi|].
    apply filter_In. split; [exact Hr|]. now rewrite Ht.
Qed.

(** C6: over the collaborators of the design document, a second
    [terminate] issued from the state the first one reached returns the
    same success response and changes nothing: the fleet, the autoscaler
    and the list of deprovisioned replicas are those the first call
    left, so that over both calls each replica that was not yet
    Terminated is handed to the Provisioner once. *)
Theorem terminate_twice :
  forall (drain_message : pyval) (self : SkyServeController)
         (request1 request2 : Request) (w : FleetModel.World),
    let o1 := run (FleetModel.handler drain_message)
                  (terminate self request1) w in
    let o2 := run (FleetModel.handler drain_message)
                  (terminate self request2) (final o1) in
    result o1 = inr (PDict [("message", drain_message)])
    /\ result o2 = result o1
    /\ final o2 = final o1
    /\ FleetModel.deprovisioned (FleetModel.fleet (final o2))
       = FleetModel.deprovisioned (FleetModel.fleet (final o1))
    /\ FleetModel.deprovisioned (FleetModel.fleet (final o2))
       = FleetModel.deprovisioned (FleetModel.fleet w)
         ++ map FleetModel.identity
                (filter (fun r => negb (FleetModel.is_terminated r))
                        (FleetModel.replicas (FleetModel.fleet w))).
Proof.
  intros dm self request1 request2 w.
  assert (Hfinal :
    final (run (FleetModel.handler dm) (terminate self request2)
               (final (run (FleetModel.handler dm)
                           (terminate self request1) w)))
    = final (run (FleetModel.handler dm) (terminate self request1) w)).
  { unfold terminate. destruct (autoscaler_is_None self); cbn;
      unfold FleetModel.with_fleet, FleetModel.with_scaler; cbn;
      now rewrite terminate_all_idempotent. }
  cbv zeta. rewrite Hfinal.
  repeat split; unfold terminate;
    destruct (autoscaler_is_None self); reflexivity.
Qed.

(** ** The status payload ([get_latest_info]) *)

(** C8: the response has exactly the fields [replica_info], [uptime]
    and [version], in that order; each is a string, the Base64 text of
    the pickled value the infra provider returned during the call, and
    decoding it (Base64, then unpickling) gives that value back wherever
    pickling returns bytes that unpickling inverts. *)
Theorem get_latest_info_roundtrip :
  forall (pickle_dumps : pyval -> PyExn + list byte)
         (pickle_loads : list byte -> option pyval)
         (W : Type) (h : Handler W) (w w1 w2 w3 : W)
         (replica_info uptime version : pyval)
         (b1 b2 b3 : list byte),
    h pyval (GetReplicaInfo true) w = (inr replica_info, w1) ->
    h pyval GetUptime w1 = (inr uptime, w2) ->
    h pyval GetLatestVersion w2 = (inr version, w3) ->
    pickle_dumps replica_info = inr b1 ->
    pickle_dumps uptime = inr b2 ->
    pickle_dumps version = inr b3 ->
    pickle_loads b1 = Some replica_info ->
    pickle_loads b2 = Some uptime ->
    pickle_loads b3 = Some version ->
    exists f1 f2 f3 : string,
      run h (get_latest_info pickle_dumps) w
      = {| calls := [Called (GetReplicaInfo true); Called GetUptime;
                     Called GetLatestVersion];
           logged := [];
           result := inr (PDict [("replica_info", PStr f1);
                                 ("uptime", PStr f2);
                                 ("version", PStr f3)]);
           final := w3 |}
      /\ b64decode_str f1 = Some b1
      /\ b64decode_str f2 = Some b2
      /\ b64decode_str f3 = Some b3
      /\ decode_field pickle_loads (PStr f1) = Some replica_info
      /\ decode_field pickle_loads (PStr f2) = Some uptime
      /\ decode_field pickle_loads (PStr f3) = Some version.
Proof.
  intros dumps loads W h w w1 w2 w3 ri up ver b1 b2 b3
         H1 H2 H3 D1 D2 D3 L1 L2 L3.
  exists (string_of_list_byte (b64encode b1)),
         (string_of_list_byte (b64encode b2)),
         (string_of_list_byte (b64encode b3)).
  unfold get_latest_info, decode_field. cbn.
  rewrite H1. cbn. rewrite H2. cbn. rewrite H3. cbn.
  unfold encode_value. rewrite D1, D2, D3, !decode_utf8_b64encode. cbn.
  rewrite !b64decode_str_text.
  repeat split; assumption.
Qed.

Lemma get_latest_info_roundtrip_witness :
  exists f1 f2 f3 : string,
    run (FleetModel.handler PNone) (get_latest_info small_pickle_dumps)
        world_empty
    = {| calls := [Called (GetReplicaInfo true); Called GetUptime;
                   Called GetLatestVersion];
         logged := [];
         result := inr (PDict [("replica_info", PStr f1);
                               ("uptime", PStr f2);
                               ("version", PStr f3)]);
         final := world_empty |}
    /\ b64decode_str f1 = Some ["]"; "."]%byte
    /\ b64decode_str f2 = Some ["K"; "*"; "."]%byte
    /\ b64decode_str f3 = Some ["K"; x01; "."]%byte
    /\ decode_field small_pickle_loads (PStr f1) = Some (PList [])
    /\ decode_field small_pickle_loads (PStr f2) = Some (PInt 42)
    /\ decode_field small_pickle_loads (PStr f3) = Some (PInt 1).
Proof.
  apply (@get_latest_info_roundtrip small_pickle_dumps small_pickle_loads
           FleetModel.World (FleetModel.handler PNone)
           world_empty world_empty world_empty world_empty
           (PList []) (PInt 42) (PInt 1));
    reflexivity.
Defined.

(** ** Start-up values *)

(** C9, as stated, fails: the cooldown, the query interval and the
    autoscaler's frequency are the same for every specification; two
    different specifications start the service with the same three
    values. *)
Lemma cadence_not_taken_from_spec :
  FleetModel.spec_v1 <> FleetModel.spec_v2
  /\ Kwargs.cooldown (autoscaler_kwargs FleetModel.spec_v1)
     = Kwargs.cooldown (autoscaler_kwargs FleetModel.spec_v2)
  /\ ~ taken_from_spec Kwargs.cooldown
  /\ ~ taken_from_spec Kwargs.query_interval
  /\ ~ taken_from_spec Kwargs.frequency.
Proof.
  split; [discriminate|]. split; [reflexivity|].
  repeat split; intros (s1 & s2 & H); apply H; reflexivity.
Qed.

(** C9, amended: at start-up the autoscaler's replica bounds,
    thresholds and restart policy are those of the supplied
    specification, while its frequency, cooldown and query interval are
    the constants 20, 60 and 60 for every specification. *)
Theorem autoscaler_kwargs_sources :
  forall service_spec : SkyServiceSpec,
    Kwargs.frequency (autoscaler_kwargs service_spec) = PInt 20
    /\ Kwargs.cooldown (autoscaler_kwargs service_spec) = PInt 60
    /\ Kwargs.query_interval (autoscaler_kwargs service_spec) = PInt 60
    /\ Kwargs.auto_restart (autoscaler_kwargs service_spec)
       = auto_restart service_spec
    /\ Kwargs.min_nodes (autoscaler_kwargs service_spec)
       = min_replicas service_spec
    /\ Kwargs.max_nodes (autoscaler_kwargs service_spec)
       = max_replicas service_spec
    /\ Kwargs.upper_threshold (autoscaler_kwargs service_spec)
       = qps_upper_threshold service_spec
    /\ Kwargs.lower_threshold (autoscaler_kwargs service_spec)
       = qps_lower_threshold service_spec.
Proof. intros; repeat split. Qed.

(** ** The access-log filter *)

Section AccessLog.

Local Open Scope string_scope.

Lemma prefix_app_iff (a s : string) :
  prefix a s = true <-> exists post, s = a ++ post.
Proof.
  revert s. induction a as [|c a IH]; intros s; cbn.
  - split; [intros _; now exists s | intros _; now destruct s].
  - destruct s as [|d s]; cbn.
    + split; [discriminate | intros [post H]; discriminate].
    + destruct (ascii_dec c d) as [->|Hne].
      * rewrite IH. split; intros [post H]; exists post.
        -- now rewrite H.
        -- now inversion H.
      * split; [discriminate|]. intros [post H]. congruence.
Qed.

Lemma str_app_assoc (a b c : string) : (a ++ b) ++ c = a ++ b ++ c.
Proof. induction a as [|x a IH]; cbn; [reflexivity | now rewrite IH]. Qed.

(** [sub in s] holds exactly when [s] is some text, then [sub], then
    some text. *)
Lemma str_in_iff (sub s : string) :
  str_in sub s = true <-> exists pre post, s = pre ++ sub ++ post.
Proof.
  induction s as [|c s IH]; cbn [str_in].
  - rewrite prefix_app_iff. split.
    + intros [post H]. now exists "", post.
    + intros (pre & post & H). exists post.
      destruct pre; [exact H | discriminate].
  - rewrite orb_true_iff, prefix_app_iff, IH. split.
    + intros [[post H] | (pre & post & H)].
      * now exists "", post.
      * exists (String c pre), post. cbn. now rewrite H.
    + intros (pre & post & H). destruct pre as [|d pre]; cbn in H.
      * left. now exists post.
      * right. exists pre, post. now inversion H.
Qed.

(** X1: the filter drops a record exactly when its message contains
    "GET" somewhere and "200" somewhere; every other record is kept. *)
Theorem filter_drops_iff :
  forall record : LogRecord,
    SuppressSuccessGetAccessLogsFilter.filter record = false
    <-> (exists pre post, getMessage record = pre ++ "GET" ++ post)
        /\ (exists pre post, getMessage record = pre ++ "200" ++ post).
Proof.
  intros record. unfold SuppressSuccessGetAccessLogsFilter.filter. cbv zeta.
  rewrite negb_false_iff, andb_true_iff, !str_in_iff. reflexivity.
Qed.

(** X2: the filter does not look at where "200" stands: a message with
    "GET" in it is dropped as soon as "200" occurs anywhere, before or
    after, whatever the rest of the line (a status, a port, a path)
    says. *)
Theorem filter_ignores_position :
  forall pre mid post : string,
    SuppressSuccessGetAccessLogsFilter.filter
      {| getMessage := pre ++ "GET" ++ mid ++ "200" ++ post |} = false
    /\ SuppressSuccessGetAccessLogsFilter.filter
         {| getMessage := pre ++ "200" ++ mid ++ "GET" ++ post |} = false.
Proof.
  intros pre mid post. split; apply filter_drops_iff; cbn [getMessage]; split.
  - now exists pre, (mid ++ "200" ++ post).
  - exists (pre ++ "GET" ++ mid), post.
    now rewrite !str_app_assoc.
  - exists (pre ++ "200" ++ mid), post.
    now rewrite !str_app_assoc.
  - now exists pre, (mid ++ "GET" ++ post).
Qed.

End AccessLog.

(** X3: what the access logger lets through after [run]: with
    [SHOW_DEBUG_INFO] set, every record; otherwise every record except
    those whose message contains both "GET" and "200". *)
Theorem access_log_passes :
  forall (show_debug_info : bool) (record : LogRecord),
    Filterer_filter (access_log_filters show_debug_info) record = true
    <-> show_debug_info = true
        \/ str_in "GET" (getMessage record) = false
        \/ str_in "200" (getMessage record) = false.
Proof.
  intros [] record; cbn.
  - split; auto.
  - unfold SuppressSuccessGetAccessLogsFilter.filter. cbv zeta.
    rewrite andb_true_r, negb_true_iff, andb_false_iff.
    split; [auto | intros [H|H]; [discriminate | exact H]].
Qed.

(** ** Start-up ([run]) *)

(** X4: [run] starts the replica prober first and the autoscaler, when
    there is one, second, and calls nothing else; a start-up that gets
    through has made exactly these calls and logged the start line; one
    that fails has logged nothing, and a failing prober leaves the
    autoscaler unstarted. *)
Theorem run_startup_order :
  forall (W : Type) (h : Handler W) (self : SkyServeController) (w : W),
    let o := run h (run_startup self) w in
    (exists rest, startup_calls self = calls o ++ rest)
    /\ (forall u, result o = inr u ->
        calls o = startup_calls self
        /\ logged o = [LogControllerStarted (port self)])
    /\ (forall e, result o = inl e -> logged o = [])
    /\ (forall e w', h unit StartReplicaProber w = (inl e, w') ->
        calls o = [Called StartReplicaProber] /\ result o = inl e
        /\ final o = w').
Proof.
  intros W h self w. unfold run_startup, startup_calls.
  destruct (autoscaler_is_None self); cbn.
  - destruct (h unit StartReplicaProber w) as [[e|[]] w1]; cbn.
    + split; [exists []; reflexivity|].
      repeat split; try discriminate; now inversion H.
    + split; [exists []; reflexivity|].
      repeat split; discriminate.
  - destruct (h unit StartReplicaProber w) as [[e|[]] w1]; cbn.
    + split; [eexists; reflexivity|].
      repeat split; try discriminate; now inversion H.
    + destruct (h unit AutoscalerStart w1) as [[e|[]] w2]; cbn.
      * split; [exists []; reflexivity|]. repeat split; discriminate.
      * split; [exists []; reflexivity|]. repeat split; discriminate.
Qed.

Lemma run_startup_order_witness :
  calls (run (FleetModel.handler PNone) (run_startup controller_rate)
             FleetModel.world0) = startup_calls controller_rate
  /\ logged (run (FleetModel.handler PNone) (run_startup controller_rate)
                 FleetModel.world0)
     = [LogControllerStarted (port controller_rate)].
Proof.
  apply (proj1 (proj2 (@run_startup_order FleetModel.World
                         (FleetModel.handler PNone) controller_rate
                         FleetModel.world0)) tt).
  reflexivity.
Defined.

(** ** The read-only endpoints *)

Lemma encode_value_text (pickle_dumps : pyval -> PyExn + list byte)
      (v : pyval) (pickled : list byte) :
  pickle_dumps v = inr pickled ->
  encode_value pickle_dumps v
  = Ret (PStr (string_of_list_byte (b64encode pickled))).
Proof.
  intros H. unfold encode_value. now rewrite H, decode_utf8_b64encode.
Qed.

Lemma encode_value_raises (pickle_dumps : pyval -> PyExn + list byte)
      (v : pyval) (e : PyExn) :
  pickle_dumps v = inl e -> encode_value pickle_dumps v = Raise e.
Proof. intros H. unfold encode_value. now rewrite H. Qed.

(** A payload field is computed without any collaborator: encoding
    either raises what [pickle.dumps] raised or returns a string. *)
Lemma encode_value_pure (pickle_dumps : pyval -> PyExn + list byte)
      (v : pyval) :
  (exists e, encode_value pickle_dumps v = Raise e)
  \/ (exists s, encode_value pickle_dumps v = Ret (PStr s)).
Proof.
  destruct (pickle_dumps v) as [e|pickled] eqn:D.
  - left. exists e. exact (encode_value_raises _ _ D).
  - right. eexists. exact (encode_value_text _ _ D).
Qed.

Ltac encode_cases dumps v :=
  destruct (encode_value_pure dumps v) as [[? ->] | [? ->]]; cbn.

(** X5: the three GET handlers only read: whatever the collaborators
    do, every call they make is one of the getters
    ([get_ready_replicas], [get_replica_info], [get_uptime],
    [get_latest_version], [get_query_interval]), and they write no log
    line. *)
Theorem get_handlers_read_only :
  forall (pickle_dumps : pyval -> PyExn + list byte) (W : Type)
         (h : Handler W)
         (self : SkyServeController) (w : W),
    (Forall (fun c => is_getter c = true) (calls (run h get_ready_replicas w))
     /\ logged (run h get_ready_replicas w) = [])
    /\ (Forall (fun c => is_getter c = true)
               (calls (run h (get_latest_info pickle_dumps) w))
        /\ logged (run h (get_latest_info pickle_dumps) w) = [])
    /\ (Forall (fun c => is_getter c = true)
               (calls (run h (get_autoscaler_query_interval self) w))
        /\ logged (run h (get_autoscaler_query_interval self) w) = []).
Proof.
  intros dumps W h self w. repeat split.
  - unfold get_ready_replicas. cbn.
    destruct (h pyval GetReadyReplicas w) as [[e|x] w1]; cbn;
      repeat constructor.
  - unfold get_ready_replicas. cbn.
    destruct (h pyval GetReadyReplicas w) as [[e|x] w1]; reflexivity.
  - unfold get_latest_info. cbn.
    destruct (h pyval (GetReplicaInfo true) w) as [[e|x] w1]; cbn;
      [repeat constructor|].
    destruct (h pyval GetUptime w1) as [[e|y] w2]; cbn;
      [repeat constructor|].
    destruct (h pyval GetLatestVersion w2) as [[e|z] w3]; cbn;
      [repeat constructor|].
    encode_cases dumps x; [repeat constructor|].
    encode_cases dumps y; [repeat constructor|].
    encode_cases dumps z; repeat constructor.
  - unfold get_latest_info. cbn.
    destruct (h pyval (GetReplicaInfo true) w) as [[e|x] w1]; cbn;
      [reflexivity|].
    destruct (h pyval GetUptime w1) as [[e|y] w2]; cbn; [reflexivity|].
    destruct (h pyval GetLatestVersion w2) as [[e|z] w3]; cbn;
      [reflexivity|].
    encode_cases dumps x; [reflexivity|].
    encode_cases dumps y; [reflexivity|].
    encode_cases dumps z; reflexivity.
  - unfold get_autoscaler_query_interval.
    destruct (isinstance_RequestRateAutoscaler self); cbn; [|constructor].
    destruct (h pyval GetQueryInterval w) as [[e|x] w1]; cbn;
      repeat constructor.
  - unfold get_autoscaler_query_interval.
    destruct (isinstance_RequestRateAutoscaler self); cbn; [|reflexivity].
    destruct (h pyval GetQueryInterval w) as [[e|x] w1]; reflexivity.
Qed.

(** ** Requests that cannot be read *)

(** X6: a load report whose count cannot be read is refused before
    anything happens, whatever the autoscaler: when [request.json()]
    raises (the body is not JSON, not UTF-8, nested too deep, ...) that
    exception is surfaced as it is, a JSON body that is not an object
    raises [TypeError], an object without [num_requests] raises
    [KeyError]; in each case no collaborator is called, nothing is
    logged and the state is unchanged. *)
Theorem update_num_requests_unreadable :
  forall (W : Type) (h : Handler W) (self : SkyServeController)
         (request : Request) (w : W),
    (body request = None ->
     run h (update_num_requests self request) w
     = {| calls := []; logged := []; result := inl (json_error request);
          final := w |})
    /\ (forall v, body request = Some v -> (forall kv, v <> PDict kv) ->
        run h (update_num_requests self request) w
        = {| calls := []; logged := []; result := inl TypeError; final := w |})
    /\ (forall kv, body request = Some (PDict kv) ->
        dict_get kv "num_requests" = None ->
        run h (update_num_requests self request) w
        = {| calls := []; logged := [];
             result := inl (KeyError "num_requests"); final := w |}).
Proof.
  intros W h self request w.
  unfold update_num_requests, request_json, getitem.
  repeat split.
  - intros ->. reflexivity.
  - intros v -> Hv. destruct v; try reflexivity. now destruct (Hv kv).
  - intros kv -> Hk. cbn. rewrite Hk. reflexivity.
Qed.

Lemma update_num_requests_unreadable_witness :
  run (FleetModel.handler PNone)
      (update_num_requests controller_rate request_empty) FleetModel.world0
  = {| calls := []; logged := []; result := inl JSONDecodeError;
       final := FleetModel.world0 |}
  /\ run (FleetModel.handler PNone)
         (update_num_requests controller_rate request_not_utf8)
         FleetModel.world0
     = {| calls := []; logged := []; result := inl UnicodeDecodeError;
          final := FleetModel.world0 |}
  /\ run (FleetModel.handler PNone)
         (update_num_requests controller_rate request_array)
         FleetModel.world0
     = {| calls := []; logged := []; result := inl TypeError;
          final := FleetModel.world0 |}
  /\ run (FleetModel.handler PNone)
         (update_num_requests controller_rate (request_update 2 true))
         FleetModel.world0
     = {| calls := []; logged := [];
          result := inl (KeyError "num_requests");
          final := FleetModel.world0 |}.
Proof.
  split; [|split; [|split]].
  - apply (proj1 (@update_num_requests_unreadable FleetModel.World
                    (FleetModel.handler PNone) controller_rate request_empty
                    FleetModel.world0)).
    reflexivity.
  - apply (proj1 (@update_num_requests_unreadable FleetModel.World
                    (FleetModel.handler PNone) controller_rate
                    request_not_utf8 FleetModel.world0)).
    reflexivity.
  - apply (proj1 (proj2 (@update_num_requests_unreadable FleetModel.World
                           (FleetModel.handler PNone) controller_rate
                           request_array FleetModel.world0))
             (PList [])).
    + reflexivity.
    + discriminate.
  - apply (proj2 (proj2 (@update_num_requests_unreadable FleetModel.World
                           (FleetModel.handler PNone) controller_rate
                           (request_update 2 true) FleetModel.world0))
             [("version", PInt 2); ("separate_replicas", PBool true)]);
      reflexivity.
Defined.

(** X7: with an autoscaler present, a rollout request that cannot be
    read is refused before the first collaborator call and before the
    first log line: the exception of [request.json()] as it is when
    parsing raises (the body is not JSON, not UTF-8, nested too deep,
    ...), [TypeError] for JSON that is not an object, [KeyError] on [version]
    when that key is missing (also when [separate_replicas] is missing
    too), and [KeyError] on [separate_replicas] when only that key is
    missing. *)
Theorem update_service_unreadable_request :
  forall (W : Type) (h : Handler W) (self : SkyServeController)
         (request : Request) (w : W),
    autoscaler_is_None self = false ->
    (body request = None ->
     run h (update_service self request) w
     = {| calls := []; logged := []; result := inl (json_error request);
          final := w |})
    /\ (forall v, body request = Some v -> (forall kv, v <> PDict kv) ->
        run h (update_service self request) w
        = {| calls := []; logged := []; result := inl TypeError; final := w |})
    /\ (forall kv, body request = Some (PDict kv) ->
        dict_get kv "version" = None ->
        run h (update_service self request) w
        = {| calls := []; logged := []; result := inl (KeyError "version");
             final := w |})
    /\ (forall kv version, body request = Some (PDict kv) ->
        dict_get kv "version" = Some version ->
        dict_get kv "separate_replicas" = None ->
        run h (update_service self request) w
        = {| calls := []; logged := [];
             result := inl (KeyError "separate_replicas"); final := w |}).
Proof.
  intros W h self request w Hn.
  unfold update_service, request_json, getitem. rewrite Hn.
  repeat split.
  - intros ->. reflexivity.
  - intros v -> Hv. destruct v; try reflexivity. now destruct (Hv kv).
  - intros kv -> Hk. cbn. rewrite Hk. reflexivity.
  - intros kv version -> Hv Hs. cbn. rewrite Hv. cbn. rewrite Hs. reflexivity.
Qed.

Lemma update_service_unreadable_request_witness :
  run (FleetModel.handler PNone)
      (update_service controller_rate request_not_utf8) FleetModel.world0
  = {| calls := []; logged := []; result := inl UnicodeDecodeError;
       final := FleetModel.world0 |}
  /\ run (FleetModel.handler PNone)
         (update_service controller_rate (request_load 7)) FleetModel.world0
     = {| calls := []; logged := []; result := inl (KeyError "version");
          final := FleetModel.world0 |}.
Proof.
  split.
  - apply (proj1 (@update_service_unreadable_request FleetModel.World
                    (FleetModel.handler PNone) controller_rate
                    request_not_utf8 FleetModel.world0 eq_refl)).
    reflexivity.
  - apply (proj1 (proj2 (proj2
             (@update_service_unreadable_request FleetModel.World
                (FleetModel.handler PNone) controller_rate (request_load 7)
                FleetModel.world0 eq_refl)))
             [("num_requests", PInt 7)]);
      reflexivity.
Defined.

(** ** A rollout that succeeds *)

(** X8: [update_service] answers exactly when there is an autoscaler,
    both request fields can be read, and the five collaborator calls
    return one after the other, each in the state the previous one
    left.  The file name asked from [from_yaml] is the one generated for
    this service name and the requested version, and the specification
    it returns is the one handed both to [update_version] and to
    [update_spec]. *)
Theorem update_service_succeeds_iff :
  forall (W : Type) (h : Handler W) (self : SkyServeController)
         (request : Request) (w wf : W) (resp : pyval),
    (result (run h (update_service self request) w) = inr resp
     /\ final (run h (update_service self request) w) = wf)
    <-> (resp = message_Success
         /\ autoscaler_is_None self = false
         /\ exists v sr path service w1 w2 w3 w4,
             update_fields request = Some (v, sr)
             /\ h unit (SetSeparateReplicas sr) w = (inr tt, w1)
             /\ h string (GenerateRemoteTaskYamlFileName
                            (service_name self) v true) w1 = (inr path, w2)
             /\ h SkyServiceSpec (FromYaml path) w2 = (inr service, w3)
             /\ h unit (UpdateVersion v service) w3 = (inr tt, w4)
             /\ h unit (UpdateSpec service) w4 = (inr tt, wf)).
Proof.
  intros W h self request w wf resp. split.
  - intros [Hr Hf].
    destruct (autoscaler_is_None self) eqn:Hn;
      [|destruct (update_fields request) as [[v sr]|] eqn:Hfields].
    + destruct (@update_service_unreadable W h self request w (or_introl Hn))
        as [e' He]. rewrite He in Hr. discriminate.
    + rewrite (@update_service_unfold self request v sr Hn Hfields) in *.
      cbn in *.
      destruct (h unit (SetSeparateReplicas sr) w) as [[e|[]] w1] eqn:E1;
        cbn in *; [discriminate|].
      destruct (h string (GenerateRemoteTaskYamlFileName
                            (service_name self) v true) w1)
        as [[e|path] w2] eqn:E2; cbn in *; [discriminate|].
      destruct (h SkyServiceSpec (FromYaml path) w2)
        as [[e|service] w3] eqn:E3; cbn in *; [discriminate|].
      destruct (h unit (UpdateVersion v service) w3)
        as [[e|[]] w4] eqn:E4; cbn in *; [discriminate|].
      destruct (h unit (UpdateSpec service) w4)
        as [[e|[]] w5] eqn:E5; cbn in *; [discriminate|].
      split; [now inversion Hr|]. split; [reflexivity|].
      exists v, sr, path, service, w1, w2, w3, w4. subst wf.
      repeat split; assumption.
    + destruct (@update_service_unreadable W h self request w
                  (or_intror Hfields)) as [e' He].
      rewrite He in Hr. discriminate.
  - intros (-> & Hn & v & sr & path & service & w1 & w2 & w3 & w4
            & Hfields & E1 & E2 & E3 & E4 & E5).
    rewrite (@update_service_unfold self request v sr Hn Hfields). cbn.
    rewrite E1. cbn. rewrite E2. cbn. rewrite E3. cbn. rewrite E4. cbn.
    rewrite E5. cbn. split; reflexivity.
Qed.

Lemma update_service_succeeds_iff_witness :
  result (run (FleetModel.handler PNone)
              (update_service controller_rate (request_update 2 true))
              FleetModel.world0) = inr message_Success
  /\ final (run (FleetModel.handler PNone)
                (update_service controller_rate (request_update 2 true))
                FleetModel.world0)
     = FleetModel.with_scaler
         (FleetModel.update_spec FleetModel.spec_v2
            (FleetModel.scaler FleetModel.world0))
         (FleetModel.with_fleet
            (FleetModel.begin_rollout (PInt 2)
               (FleetModel.set_separate_replicas (PBool true)
                  (FleetModel.fleet FleetModel.world0)))
            FleetModel.world0).
Proof.
  apply (proj2 (@update_service_succeeds_iff FleetModel.World
                  (FleetModel.handler PNone) controller_rate
                  (request_update 2 true) FleetModel.world0 _
                  message_Success)).
  split; [reflexivity|]. split; [reflexivity|].
  exists (PInt 2), (PBool true), "svc_v2.yaml", FleetModel.spec_v2.
  eexists _, _, _, _.
  repeat split.
Defined.

(** ** The status payload, further *)

(** X9: where a failure of [get_latest_info] comes from.  When it
    raises, either a getter raised that exception, the getters after
    it were not called and the state is the one it left; or the three
    getters returned and [pickle.dumps] raised it on one of the three
    values, taken in the order [replica_info], [uptime], [version].
    When the getters return and the three values can be pickled, it
    answers. *)
Theorem get_latest_info_failures :
  forall (pickle_dumps : pyval -> PyExn + list byte) (W : Type)
         (h : Handler W) (w : W),
    let o := run h (get_latest_info pickle_dumps) w in
    (forall e, result o = inl e ->
       (h pyval (GetReplicaInfo true) w = (inl e, final o)
        /\ calls o = [Called (GetReplicaInfo true)])
       \/ (exists ri w1,
             h pyval (GetReplicaInfo true) w = (inr ri, w1)
             /\ h pyval GetUptime w1 = (inl e, final o)
             /\ calls o = [Called (GetReplicaInfo true); Called GetUptime])
       \/ (exists ri w1 up w2,
             h pyval (GetReplicaInfo true) w = (inr ri, w1)
             /\ h pyval GetUptime w1 = (inr up, w2)
             /\ h pyval GetLatestVersion w2 = (inl e, final o)
             /\ calls o = [Called (GetReplicaInfo true); Called GetUptime;
                           Called GetLatestVersion])
       \/ (exists ri w1 up w2 ver,
             h pyval (GetReplicaInfo true) w = (inr ri, w1)
             /\ h pyval GetUptime w1 = (inr up, w2)
             /\ h pyval GetLatestVersion w2 = (inr ver, final o)
             /\ calls o = [Called (GetReplicaInfo true); Called GetUptime;
                           Called GetLatestVersion]
             /\ (pickle_dumps ri = inl e
                 \/ (exists b1, pickle_dumps ri = inr b1
                                /\ pickle_dumps up = inl e)
                 \/ (exists b1 b2, pickle_dumps ri = inr b1
                                   /\ pickle_dumps up = inr b2
                                   /\ pickle_dumps ver = inl e))))
    /\ (forall ri w1 up w2 ver w3 b1 b2 b3,
          h pyval (GetReplicaInfo true) w = (inr ri, w1) ->
          h pyval GetUptime w1 = (inr up, w2) ->
          h pyval GetLatestVersion w2 = (inr ver, w3) ->
          pickle_dumps ri = inr b1 ->
          pickle_dumps up = inr b2 ->
          pickle_dumps ver = inr b3 ->
          exists resp, result o = inr resp /\ final o = w3).
Proof.
  intros dumps W h w. unfold get_latest_info. cbn.
  destruct (h pyval (GetReplicaInfo true) w) as [[e1|ri] w1] eqn:E1; cbn.
  { split.
    - intros e He. inversion He. subst. left. split; reflexivity.
    - intros ? ? ? ? ? ? ? ? ? H. discriminate. }
  destruct (h pyval GetUptime w1) as [[e2|up] w2] eqn:E2; cbn.
  { split.
    - intros e He. inversion He. subst. right. left.
      exists ri, w1. repeat split. exact E2.
    - intros ? ? ? ? ? ? ? ? ? H H'. inversion H. subst.
      rewrite E2 in H'. discriminate. }
  destruct (h pyval GetLatestVersion w2) as [[e3|ver] w3] eqn:E3; cbn.
  { split.
    - intros e He. inversion He. subst. right. right. left.
      exists ri, w1, up, w2. repeat split; assumption.
    - intros ? ? ? ? ? ? ? ? ? H H' H''. inversion H. subst.
      rewrite E2 in H'. inversion H'. subst.
      rewrite E3 in H''. discriminate. }
  destruct (dumps ri) as [x1|b1] eqn:D1.
  { rewrite (encode_value_raises _ _ D1). cbn. split.
    - intros e He. inversion He. subst. right. right. right.
      exists ri, w1, up, w2, ver. repeat split; try assumption. now left.
    - intros ? ? ? ? ? ? ? ? ? H _ _ D. inversion H. subst.
      rewrite D1 in D. discriminate. }
  rewrite (encode_value_text _ _ D1). cbn.
  destruct (dumps up) as [x2|b2] eqn:D2.
  { rewrite (encode_value_raises _ _ D2). cbn. split.
    - intros e He. inversion He. subst. right. right. right.
      exists ri, w1, up, w2, ver. repeat split; try assumption.
      right. left. now exists b1.
    - intros ? ? ? ? ? ? ? ? ? H H' _ _ D. inversion H. subst.
      rewrite E2 in H'. inversion H'. subst.
      rewrite D2 in D. discriminate. }
  rewrite (encode_value_text _ _ D2). cbn.
  destruct (dumps ver) as [x3|b3] eqn:D3.
  { rewrite (encode_value_raises _ _ D3). cbn. split.
    - intros e He. inversion He. subst. right. right. right.
      exists ri, w1, up, w2, ver. repeat split; try assumption.
      right. right. now exists b1, b2.
    - intros ? ? ? ? ? ? ? ? ? H H' H'' _ _ D. inversion H. subst.
      rewrite E2 in H'. inversion H'. subst.
      rewrite E3 in H''. inversion H''. subst.
      rewrite D3 in D. discriminate. }
  rewrite (encode_value_text _ _ D3). cbn. split.
  - discriminate.
  - intros ? ? ? ? ? ? ? ? ? H H' H'' _ _ _. inversion H. subst.
    rewrite E2 in H'. inversion H'. subst.
    rewrite E3 in H''. inversion H''. subst.
    eexists. split; reflexivity.
Qed.

Lemma get_latest_info_failures_witness :
  exists resp,
    result (run (FleetModel.handler PNone)
                (get_latest_info small_pickle_dumps) world_empty)
    = inr resp
    /\ final (run (FleetModel.handler PNone)
                  (get_latest_info small_pickle_dumps) world_empty)
       = world_empty.
Proof.
  apply (proj2 (@get_latest_info_failures small_pickle_dumps FleetModel.World
                  (FleetModel.handler PNone) world_empty)
           (PList []) world_empty (PInt 42) world_empty (PInt 1) world_empty
           ["]"; "."]%byte ["K"; "*"; "."]%byte ["K"; x01; "."]%byte);
    reflexivity.
Defined.

(** X10: the encoding of a payload field,
    [b64encode(pickle.dumps(v)).decode('utf-8')], fails exactly when
    [pickle.dumps] fails, with the same exception; otherwise it is a
    string from which Base64 decoding gives back exactly the pickled
    bytes, so two values get the same field only if they have the same
    pickle. *)
Theorem encode_value_invertible :
  forall (pickle_dumps : pyval -> PyExn + list byte) (v : pyval),
    (forall e, pickle_dumps v = inl e <-> encode_value pickle_dumps v = Raise e)
    /\ (forall pickled, pickle_dumps v = inr pickled ->
        exists s : string,
          encode_value pickle_dumps v = Ret (PStr s)
          /\ b64decode_str s = Some pickled
          /\ (forall v' pickled',
                pickle_dumps v' = inr pickled' ->
                encode_value pickle_dumps v' = encode_value pickle_dumps v ->
                pickled' = pickled)).
Proof.
  intros dumps v. split.
  - intros e. split.
    + apply encode_value_raises.
    + intros H. destruct (dumps v) as [e'|b] eqn:D.
      * rewrite (encode_value_raises _ _ D) in H. now inversion H.
      * rewrite (encode_value_text _ _ D) in H. discriminate.
  - intros b D.
    exists (string_of_list_byte (b64encode b)).
    split; [exact (encode_value_text _ _ D)|].
    split; [apply b64decode_str_text|].
    intros v' b' D' H.
    rewrite (encode_value_text _ _ D), (encode_value_text _ _ D') in H.
    assert (Hs : b64decode_str (string_of_list_byte (b64encode b'))
                 = b64decode_str (string_of_list_byte (b64encode b)))
      by (inversion H as [H']; now rewrite H').
    rewrite !b64decode_str_text in Hs. now inversion Hs.
Qed.

Lemma encode_value_invertible_witness :
  exists s : string,
    encode_value small_pickle_dumps (PInt 42) = Ret (PStr s)
    /\ b64decode_str s = Some ["K"; "*"; "."]%byte
    /\ (forall v' pickled',
          small_pickle_dumps v' = inr pickled' ->
          encode_value small_pickle_dumps v'
          = encode_value small_pickle_dumps (PInt 42) ->
          pickled' = ["K"; "*"; "."]%byte).
Proof.
  apply (proj2 (@encode_value_invertible small_pickle_dumps (PInt 42))).
  reflexivity.
Defined.

Lemma b64_char_in_alphabet (i : N) : (i < 64)%N -> In (b64_char i) b64_alphabet.
Proof.
  intros Hi. unfold b64_char. apply nth_In.
  change (List.length b64_alphabet) with 64%nat. lia.
Qed.

Ltac b64_char_text :=
  left; apply b64_char_in_alphabet;
  zify; Z.to_euclidean_division_equations; lia.

(** X11: the shape of Base64 text: [n] bytes give [4 * ceil(n / 3)]
    characters, each one from the 64-character alphabet or the
    padding [=]. *)
Theorem b64encode_shape :
  forall bs : list byte,
    List.length (b64encode bs) = (4 * ((List.length bs + 2) / 3))%nat
    /\ Forall is_b64_text (b64encode bs).
Proof.
  induction bs as [|a|a b|a b c rest [IHl IHf]] using list_ind3.
  - split; [reflexivity | constructor].
  - split; [reflexivity|]. cbn [b64encode].
    pose proof (Byte.to_N_bounded a).
    apply Forall_cons; [b64_char_text|].
    apply Forall_cons; [b64_char_text|].
    apply Forall_cons; [now right|].
    apply Forall_cons; [now right|].
    apply Forall_nil.
  - split; [reflexivity|]. cbn [b64encode].
    pose proof (Byte.to_N_bounded a). pose proof (Byte.to_N_bounded b).
    apply Forall_cons; [b64_char_text|].
    apply Forall_cons; [b64_char_text|].
    apply Forall_cons; [b64_char_text|].
    apply Forall_cons; [now right|].
    apply Forall_nil.
  - split.
    + cbn [b64encode List.length]. rewrite IHl.
      replace (S (S (S (List.length rest))) + 2)%nat
        with (List.length rest + 2 + 1 * 3)%nat by lia.
      rewrite Nat.div_add by lia. lia.
    + cbn [b64encode].
      pose proof (Byte.to_N_bounded a). pose proof (Byte.to_N_bounded b).
      pose proof (Byte.to_N_bounded c).
      apply Forall_cons; [b64_char_text|].
      apply Forall_cons; [b64_char_text|].
      apply Forall_cons; [b64_char_text|].
      apply Forall_cons; [b64_char_text|].
      exact IHf.
Qed.

(** ** The service as [__main__] wires it *)

(** X12: the controller built by [__main__] always has a
    [RequestRateAutoscaler]: every readable load report is forwarded to
    it, the interval endpoint always asks it, [terminate] always stops
    it before anything else, and a rollout is never refused for want of
    an autoscaler (a body that cannot be parsed is refused with the
    parser's exception). *)
Theorem main_controller_autoscaling :
  forall (args : Args) (W : Type) (h : Handler W) (w : W),
    (forall request data n,
        body request = Some (PDict data) ->
        dict_get data "num_requests" = Some n ->
        calls (run h (update_num_requests (main_controller args) request) w)
        = [Called (SetNumRequests n)])
    /\ calls (run h (get_autoscaler_query_interval (main_controller args)) w)
       = [Called GetQueryInterval]
    /\ (forall request, exists rest,
          calls (run h (terminate (main_controller args) request) w)
          = Called AutoscalerTerminate :: rest)
    /\ (forall request, body request = None ->
        result (run h (update_service (main_controller args) request) w)
        = inl (json_error request)).
Proof.
  intros args W h w. split; [|split; [|split]].
  - intros request data n Hb Hn.
    apply (@update_num_requests_forwarding W h (main_controller args)
             request data n w Hb Hn).
    reflexivity.
  - unfold get_autoscaler_query_interval. cbn.
    destruct (h pyval GetQueryInterval w) as [[e|q] w']; reflexivity.
  - intros request. unfold terminate. cbn.
    destruct (h unit AutoscalerTerminate w) as [[e|[]] w1]; cbn;
      eexists; reflexivity.
  - intros request Hb.
    unfold update_service, request_json. cbn. rewrite Hb. reflexivity.
Qed.

Lemma main_controller_autoscaling_witness :
  calls (run (FleetModel.handler PNone)
             (update_num_requests
                (main_controller {| args_service_name := "svc";
                                    args_version := 1;
                                    args_controller_port := 30001 |})
                (request_load 7))
             FleetModel.world0)
  = [Called (SetNumRequests (PInt 7))].
Proof.
  apply (proj1 (@main_controller_autoscaling
                  {| args_service_name := "svc"; args_version := 1;
                     args_controller_port := 30001 |}
                  FleetModel.World (FleetModel.handler PNone)
                  FleetModel.world0)
           (request_load 7) [("num_requests", PInt 7)] (PInt 7));
    reflexivity.
Defined.

(** ** A terminate that fails *)

(** X13: when the autoscaler's [terminate] raises, the controller's
    [terminate] surfaces that exception and never reaches the drain:
    [infra_provider.terminate] is not called and the replicas are left
    as they were; when the drain raises, its exception is surfaced
    after the autoscaler has been stopped. *)
Theorem terminate_failures :
  forall (W : Type) (h : Handler W) (self : SkyServeController)
         (request : Request) (w : W),
    autoscaler_is_None self = false ->
    (forall e w1,
        h unit AutoscalerTerminate w = (inl e, w1) ->
        run h (terminate self request) w
        = {| calls := [Called AutoscalerTerminate];
             logged := [LogTerminatingService; LogTerminateAutoscaler];
             result := inl e; final := w1 |})
    /\ (forall e w1 w2,
        h unit AutoscalerTerminate w = (inr tt, w1) ->
        h pyval InfraTerminate w1 = (inl e, w2) ->
        run h (terminate self request) w
        = {| calls := [Called AutoscalerTerminate; Called InfraTerminate];
             logged := [LogTerminatingService; LogTerminateAutoscaler];
             result := inl e; final := w2 |}).
Proof.
  intros W h self request w Hn. unfold terminate. rewrite Hn. cbn. split.
  - intros e w1 E1. now rewrite E1.
  - intros e w1 w2 E1 E2. rewrite E1. cbn. now rewrite E2.
Qed.

Lemma terminate_failures_witness :
  run handler_autoscaler_stuck (terminate controller_rate request_empty)
      FleetModel.world0
  = {| calls := [Called AutoscalerTerminate];
       logged := [LogTerminatingService; LogTerminateAutoscaler];
       result := inl (CollaboratorError "autoscaler stuck");
       final := FleetModel.world0 |}.
Proof.
  apply (proj1 (@terminate_failures FleetModel.World handler_autoscaler_stuck
                  controller_rate request_empty FleetModel.world0 eq_refl)).
  reflexivity.
Defined.
